(** * Open-MV face detector: template store, matcher, liveness gate, enrollment

    A shallow embedding of the four drafts of the appliance
    (人脸识别-1.py .. 人脸识别-4.py).  Draft 4 repeats the store, matcher,
    liveness and enrollment code of draft 3 verbatim (only docstrings and the
    feature extractor differ), so [V3] stands for both.

    Numbers.  The store, the matcher loop, the averaging and the settings are
    modelled over the real numbers: [+], [*], [/], [** 0.5] and the
    comparisons are the exact ones, and what is proved there rests on the
    structure of the code and on comparisons of computed values, not on
    rounding.  The value of the cosine itself is a matter of rounding, so
    [cosine_similarity] is given a second time over binary64 floats
    (module [Float64]), and what is said about its values is settled there.

    Environment.  Everything the code asks the board for (camera frames,
    detector and extractor answers, button polls, clock readings, the outcome
    of a file write) is an explicit input. *)

From Stdlib Require Import Reals Lra Lia ZArith String DecimalString DecimalZ Bool List.
From Stdlib Require Floats.
Import ListNotations.

Local Open Scope string_scope.
Local Open Scope list_scope.
Local Open Scope Z_scope.

(** ** Exceptions and results *)

Inductive exn : Type := KeyError | TypeError | IndexError | ZeroDivisionError.

Inductive result (A : Type) : Type :=
| Ret (a : A)
| Raise (e : exn).

Arguments Ret {A} a.
Arguments Raise {A} e.

Definition bind {A B : Type} (m : result A) (k : A -> result B) : result B :=
  match m with
  | Ret a => k a
  | Raise e => Raise e
  end.

Notation "x <- m ;; k" := (bind m (fun x => k))
  (at level 61, m at next level, right associativity).

Fixpoint mapM {A B : Type} (f : A -> result B) (l : list A) : result (list B) :=
  match l with
  | [] => Ret []
  | a :: l' => b <- f a ;; bs <- mapM f l' ;; Ret (b :: bs)
  end.

(** ** Python dicts with [str] keys

    An association list in insertion order.  Assigning to a key that is
    present replaces the value in place; a new key goes to the end. *)

Module PyDict.

Definition dict (V : Type) : Type := list (string * V).

Section Ops.
Context {V : Type}.

(** [d.get(k)] *)
Fixpoint get (k : string) (d : dict V) : option V :=
  match d with
  | [] => None
  | (k', v) :: d' => if String.eqb k k' then Some v else get k d'
  end.

(** [k in d] *)
Definition mem (k : string) (d : dict V) : bool :=
  match get k d with
  | Some _ => true
  | None => false
  end.

(** [d[k] = v] *)
Fixpoint set (k : string) (v : V) (d : dict V) : dict V :=
  match d with
  | [] => [(k, v)]
  | (k', v') :: d' =>
      if String.eqb k k' then (k', v) :: d' else (k', v') :: set k v d'
  end.

(** [del d[k]], for a key that is present (every use is guarded by [in]) *)
Fixpoint del (k : string) (d : dict V) : dict V :=
  match d with
  | [] => []
  | (k', v') :: d' => if String.eqb k k' then d' else (k', v') :: del k d'
  end.

Definition keys (d : dict V) : list string := map fst d.

(** Keys of a dict are pairwise distinct. *)
Definition wf (d : dict V) : Prop := NoDup (keys d).
End Ops.

End PyDict.

Import PyDict.

(** ** Values held in a user record *)

Inductive value : Type :=
| VStr (s : string)
| VInt (n : Z)
| VFloats (l : list R).

Definition user_data : Type := dict value.
Definition user_table : Type := dict user_data.

(** [list] truthiness *)
Definition nonempty {A : Type} (l : list A) : bool :=
  match l with
  | [] => false
  | _ :: _ => true
  end.

(** [str(n)] for an [int] *)
Definition str (n : Z) : string := NilZero.string_of_int (Z.to_int n).

(** ** The backing file and the clock *)

(** What the backing file holds: [None] is a missing or unparsable file. *)
Definition file : Type := option user_table.

(** Outcome of [open(path, "w")] followed by [json.dump]: it succeeds, or an
    exception is raised and the file is left holding [leftover]. *)
Inductive io : Type :=
| IoOk
| IoError (leftover : file).

(** One reading of [time.ticks_ms()] and of [str(time.localtime())]. *)
Record clock : Type := { ticks_ms : Z; localtime : string }.

Record state : Type := { users : user_table; disk : file }.

(** ** Cosine similarity (the same function in every draft) *)

Local Open Scope R_scope.

(** [sum(xs)] : left to right, starting from 0 *)
Definition py_sum (xs : list R) : R := fold_left Rplus xs 0.

(** [x / y] : division by zero raises *)
Definition py_div (x y : R) : result R :=
  if Req_dec_T y 0 then Raise ZeroDivisionError else Ret (x / y).

(** [sum(a * a for a in feat) ** 0.5] *)
Definition norm (feat : list R) : R := sqrt (py_sum (map (fun a => a * a) feat)).

(** [sum(a * b for a, b in zip(feat1, feat2))] *)
Definition dot (feat1 feat2 : list R) : R :=
  py_sum (map (fun ab => fst ab * snd ab) (combine feat1 feat2)).

Definition cosine_similarity (feat1 feat2 : list R) : result R :=
  let dot_product := dot feat1 feat2 in
  let norm_a := norm feat1 in
  let norm_b := norm feat2 in
  if Req_dec_T norm_a 0 then Ret 0
  else if Req_dec_T norm_b 0 then Ret 0
  else py_div dot_product (norm_a * norm_b).

(** ** The matcher loop

    The three drafts run the same loop; they differ in the key under which a
    record keeps its vector (["descriptor"] in drafts 1 and 2, ["features"]
    in draft 3). *)

(** A stored value read as the second vector of [cosine_similarity]: a list
    of numbers is taken as it is; [zip] and the sum run over no element of the
    empty string; the first product with a character of a non-empty string, or
    iterating an [int], raises. *)
Definition as_vector (v : value) : result (list R) :=
  match v with
  | VFloats l => Ret l
  | VStr EmptyString => Ret []
  | VStr (String _ _) => Raise TypeError
  | VInt _ => Raise TypeError
  end.

Fixpoint scan_users (key : string) (probe : list R) (items : list (string * user_data))
    (highest_similarity : R) (best_match : option string) : result (option string) :=
  match items with
  | [] => Ret best_match
  | (user_id, data) :: items' =>
      match get key data with
      | None => Raise KeyError
      | Some v =>
          match known <- as_vector v ;; cosine_similarity probe known with
          | Raise e => Raise e
          | Ret similarity =>
              if Rgt_dec similarity highest_similarity
              then scan_users key probe items' similarity (Some user_id)
              else scan_users key probe items' highest_similarity best_match
          end
      end
  end.

(** The similarity the loop computes for one record: the record keeps a
    vector under [key] and [s] is its cosine similarity to the probe. *)
Definition similarity_of (key : string) (probe : list R) (data : user_data) (s : R) : Prop :=
  exists v known,
    get key data = Some v /\ as_vector v = Ret known
    /\ cosine_similarity probe known = Ret s.

(** ** Averaging of the accepted samples (the same comprehension in every draft) *)

(** [f[i] for f in samples] *)
Fixpoint column (i : nat) (samples : list (list R)) : result (list R) :=
  match samples with
  | [] => Ret []
  | f :: samples' =>
      match nth_error f i with
      | None => Raise IndexError
      | Some x => xs <- column i samples' ;; Ret (x :: xs)
      end
  end.

(** [[sum(f[i] for f in samples) / len(samples) for i in range(len(samples[0]))]] *)
Definition avg_features (samples : list (list R)) : result (list R) :=
  match samples with
  | [] => Raise IndexError
  | first :: _ =>
      mapM (fun i => col <- column i samples ;;
                     py_div (py_sum col) (INR (List.length samples)))
           (seq 0 (List.length first))
  end.

(** Component [i] of the arithmetic mean of the samples: the sum of the
    components [i], divided by the number of samples. *)
Definition mean_component (samples : list (list R)) (i : nat) : R :=
  py_sum (map (fun f => nth i f 0) samples) / INR (List.length samples).

Local Close Scope R_scope.

(** ** Cosine similarity over binary64 floats

    The same function with Python's [float]: IEEE 754 binary64 with rounding
    to nearest, [==] as the IEEE equality, [sum] adding from left to right
    starting at 0, and [** 0.5] taken as the correctly rounded square root. *)

Module Float64.

Import Floats.

(** [sum(xs)] *)
Definition py_sum (xs : list float) : float := fold_left PrimFloat.add xs 0%float.

(** [x / y] : division by zero raises *)
Definition py_div (x y : float) : result float :=
  if (y =? 0)%float then Raise ZeroDivisionError else Ret (x / y)%float.

(** [sum(a * a for a in feat) ** 0.5] *)
Definition norm (feat : list float) : float :=
  PrimFloat.sqrt (py_sum (map (fun a => (a * a)%float) feat)).

(** [sum(a * b for a, b in zip(feat1, feat2))] *)
Definition dot (feat1 feat2 : list float) : float :=
  py_sum (map (fun ab => (fst ab * snd ab)%float) (combine feat1 feat2)).

Definition cosine_similarity (feat1 feat2 : list float) : result float :=
  let dot_product := dot feat1 feat2 in
  let norm_a := norm feat1 in
  let norm_b := norm feat2 in
  if (norm_a =? 0)%float then Ret 0%float
  else if (norm_b =? 0)%float then Ret 0%float
  else py_div dot_product (norm_a * norm_b)%float.

Definition huge : list float := [0x1p+700%float].

End Float64.

(** ** Draft 1 (人脸识别-1.py) *)

Module V1.

(** [recognize_face] *)
Definition recognize_face (descriptor : option (list R)) (threshold : R)
    (user_db : user_table) : result (option string) :=
  match descriptor with
  | None => Ret None
  | Some d => scan_users "descriptor" d user_db threshold None
  end.

(** The tail of [registration_mode], from the averaging on: insert the
    record, write the file, and on a failed write take the record out
    again. *)
Definition registration_commit (name : string) (samples : list (list R))
    (now : clock) (o : io) (st : state) : result (state * bool) :=
  avg_descriptor <- avg_features samples ;;
  let user_id := str (ticks_ms now) in
  let user_db :=
    set user_id
      [ ("name", VStr name);
        ("descriptor", VFloats avg_descriptor);
        ("registration_time", VStr (localtime now));
        ("samples_count", VInt (Z.of_nat (List.length samples))) ]
      (users st) in
  match o with
  | IoOk => Ret ({| users := user_db; disk := Some user_db |}, true)
  | IoError leftover =>
      let user_db' := if mem user_id user_db then del user_id user_db else user_db in
      Ret ({| users := user_db'; disk := leftover |}, false)
  end.

End V1.

(** ** Draft 2 (人脸识别-2.py) *)

Module V2.

(** [UserDatabase.save] *)
Definition save (o : io) (st : state) : state * bool :=
  match o with
  | IoOk => ({| users := users st; disk := Some (users st) |}, true)
  | IoError leftover => ({| users := users st; disk := leftover |}, false)
  end.

(** [UserDatabase.add] *)
Definition add (name : string) (descriptor : list R) (now : clock) (o : io)
    (st : state) : state * (bool * string) :=
  let user_id := str (ticks_ms now) in
  let st1 :=
    {| users :=
         set user_id
           [ ("name", VStr name);
             ("descriptor", VFloats descriptor);
             ("registration_time", VStr (localtime now));
             ("samples_count", VInt 1) ]
           (users st);
       disk := disk st |} in
  let (st2, ok) := save o st1 in
  (st2, (ok, user_id)).

(** [FaceRecognitionSystem._recognize_face], at threshold
    [SystemConfig.SIMILARITY_THRESHOLD] *)
Definition _recognize_face (descriptor : option (list R)) (threshold : R)
    (user_db : user_table) : result (option string) :=
  match descriptor with
  | None => Ret None
  | Some d => scan_users "descriptor" d user_db threshold None
  end.

End V2.

(** ** Draft 3 (人脸识别-3.py; draft 4 has the same code) *)

Module V3.

(** [class Config] *)
Record Config : Type := {
  MIN_FACE_SIZE : Z;
  REGISTRATION_SAMPLES : nat;
  SIMILARITY_THRESHOLD : R;
  LIVENESS_TIMEOUT : Z
}.

Definition default_config : Config :=
  {| MIN_FACE_SIZE := 80;
     REGISTRATION_SAMPLES := 5;
     SIMILARITY_THRESHOLD := (5 / 10)%R;
     LIVENESS_TIMEOUT := 5000 |}.

(** *** UserManager *)

(** [UserManager._load_db] *)
Definition _load_db (f : file) : user_table :=
  match f with
  | Some table => table
  | None => []
  end.

(** [UserManager.save_db] *)
Definition save_db (o : io) (st : state) : state * bool :=
  match o with
  | IoOk => ({| users := users st; disk := Some (users st) |}, true)
  | IoError leftover => ({| users := users st; disk := leftover |}, false)
  end.

(** [UserManager.add_user] *)
Definition add_user (name : string) (features : list R) (now : clock) (o : io)
    (st : state) : state * (bool * string) :=
  let user_id := str (ticks_ms now) in
  let st1 :=
    {| users :=
         set user_id
           [ ("name", VStr name);
             ("features", VFloats features);
             ("registered_at", VStr (localtime now));
             ("samples_count", VInt 1) ]
           (users st);
       disk := disk st |} in
  let (st2, ok) := save_db o st1 in
  (st2, (ok, user_id)).

(** [UserManager.get_user] *)
Definition get_user (user_id : string) (st : state) : option user_data :=
  get user_id (users st).

(** [UserManager.find_user_by_features]; [not features] holds of [None] and
    of the empty list *)
Definition find_user_by_features (features : option (list R)) (threshold : R)
    (table : user_table) : result (option string) :=
  match features with
  | None => Ret None
  | Some [] => Ret None
  | Some (x :: xs) => scan_users "features" (x :: xs) table threshold None
  end.

(** *** Camera frames and button polls *)

(** A bounding box [(x, y, w, h)] *)
Definition rect : Type := (Z * Z * Z * Z)%type.

Definition width (f : rect) : Z := let '(_, _, w, _) := f in w.
Definition height (f : rect) : Z := let '(_, _, _, h) := f in h.
Definition area (f : rect) : Z := width f * height f.

(** [max(faces, key=...)] over a non-empty list: the first maximal element *)
Fixpoint max_by (key : rect -> Z) (best : rect) (l : list rect) : rect :=
  match l with
  | [] => best
  | f :: l' => if key f >? key best then max_by key f l' else max_by key best l'
  end.

(** One turn of the sample loop: the detector's boxes, the answer of the
    "up" button, what the extractor would return for the chosen box, and the
    answer of the "back" button. *)
Record capture_tick : Type := {
  c_faces : list rect;
  c_up : bool;
  c_features : option (list R);
  c_back : bool
}.

(** One turn of the liveness loop: the clock reading of the loop test, the
    face boxes, the eye boxes found inside the first face, and the answer of
    the "back" button. *)
Record live_tick : Type := {
  l_now : Z;
  l_faces : list rect;
  l_eyes : list rect;
  l_back : bool
}.

(** The sample loop of [_registration_mode] and of
    [_recollect_user_features].  [None]: the frames ran out while the loop
    was still polling. *)
Fixpoint collect (cfg : Config) (samples : list (list R)) (frames : list capture_tick)
    {struct frames} : option (list (list R)) :=
  if Nat.ltb (List.length samples) (REGISTRATION_SAMPLES cfg) then
    match frames with
    | [] => None
    | tk :: frames' =>
        let poll_back := fun samples1 : list (list R) =>
          if c_back tk && nonempty samples1 then Some samples1
          else collect cfg samples1 frames' in
        match c_faces tk with
        | [] => poll_back samples
        | f0 :: fs =>
            let face := max_by area f0 fs in
            if c_up tk then
              if (width face <? MIN_FACE_SIZE cfg) || (height face <? MIN_FACE_SIZE cfg)
              then collect cfg samples frames'
              else
                match c_features tk with
                | Some (x :: xs) => poll_back (samples ++ [x :: xs])
                | _ => poll_back samples
                end
            else poll_back samples
        end
    end
  else Some samples.

(** What one run of the enrollment screen is given. *)
Record enrollment_env : Type := {
  e_name : string;
  e_capture : list capture_tick;
  e_live_start : Z;
  e_live : list live_tick;
  e_now : clock;
  e_io : io
}.

(** How a run of [_registration_mode] ends.  [Pending]: the run had not
    returned when the inputs ran out. *)
Inductive reg_outcome : Type :=
| Cancelled
| NoSamples
| LivenessFailed
| Registered (user_id : string)
| SaveFailed (user_id : string)
| Crashed (e : exn)
| Pending.

Section Platform.

(** [time.ticks_diff] of the board's firmware *)
Variable ticks_diff : Z -> Z -> Z.

(** The loop of [_liveness_detection], with its two flags.  [None]: the
    frames ran out while the loop was still polling. *)
Fixpoint liveness_loop (cfg : Config) (start_time : Z)
    (eyes_detected eyes_closed : bool) (frames : list live_tick) : option bool :=
  match frames with
  | [] => None
  | tk :: frames' =>
      if ticks_diff (l_now tk) start_time <? LIVENESS_TIMEOUT cfg then
        let poll_back := fun detected : bool =>
          if l_back tk then Some (detected && eyes_closed)
          else liveness_loop cfg start_time detected eyes_closed frames' in
        match l_faces tk with
        | [] => poll_back eyes_detected
        | _ :: _ =>
            if nonempty (l_eyes tk) && negb eyes_detected then poll_back true
            else if eyes_detected && negb (nonempty (l_eyes tk))
                 then Some (eyes_detected && true)
                 else poll_back eyes_detected
        end
      else Some (eyes_detected && eyes_closed)
  end.

(** [FaceRecognitionApp._liveness_detection] *)
Definition _liveness_detection (cfg : Config) (start_time : Z)
    (frames : list live_tick) : option bool :=
  liveness_loop cfg start_time false false frames.

(** [FaceRecognitionApp._registration_mode] *)
Definition _registration_mode (cfg : Config) (env : enrollment_env) (st : state)
    : state * reg_outcome :=
  match e_name env with
  | EmptyString => (st, Cancelled)
  | String _ _ =>
      match collect cfg [] (e_capture env) with
      | None => (st, Pending)
      | Some [] => (st, NoSamples)
      | Some (s :: ss) =>
          match _liveness_detection cfg (e_live_start env) (e_live env) with
          | None => (st, Pending)
          | Some false => (st, LivenessFailed)
          | Some true =>
              match avg_features (s :: ss) with
              | Raise e => (st, Crashed e)
              | Ret avg =>
                  let '(st', (success, user_id)) :=
                    add_user (e_name env) avg (e_now env) (e_io env) st in
                  (st', if success then Registered user_id else SaveFailed user_id)
              end
          end
      end
  end.

End Platform.

(** How a run of [_recollect_user_features] ends. *)
Inductive recollect_outcome : Type :=
| UnknownUser
| NothingCollected
| Updated
| UpdateNotSaved
| Unfinished.

(** [FaceRecognitionApp._recollect_user_features].  The first message reads
    [user['name']].  [user] is the record object held by the table, so the
    two assignments change the table. *)
Definition _recollect_user_features (cfg : Config) (user_id : string)
    (frames : list capture_tick) (o : io) (st : state)
    : result (state * recollect_outcome) :=
  match get_user user_id st with
  | None => Ret (st, UnknownUser)
  | Some [] => Ret (st, UnknownUser)
  | Some (fld :: flds) =>
      let user := fld :: flds in
      match get "name" user with
      | None => Raise KeyError
      | Some _ =>
          match collect cfg [] frames with
          | None => Ret (st, Unfinished)
          | Some [] => Ret (st, NothingCollected)
          | Some (s :: ss) =>
              match avg_features (s :: ss) with
              | Raise e => Raise e
              | Ret avg =>
                  let user1 := set "features" (VFloats avg) user in
                  let user2 :=
                    set "samples_count" (VInt (Z.of_nat (List.length (s :: ss)))) user1 in
                  let st1 := {| users := set user_id user2 (users st); disk := disk st |} in
                  let (st2, ok) := save_db o st1 in
                  Ret (st2, if ok then Updated else UpdateNotSaved)
              end
          end
      end
  end.

End V3.

(** [time.ticks_diff] as MicroPython documents it: the signed difference of
    two readings of a counter that wraps at [2^30]. *)
Definition micropython_ticks_diff (a b : Z) : Z :=
  ((a - b + 2 ^ 29) mod 2 ^ 30) - 2 ^ 29.

(** ** Draft 3: the other store operations *)

Module V3Store.

(** [UserManager.delete_user] *)
Definition delete_user (user_id : string) (o : io) (st : state) : state * bool :=
  if mem user_id (users st)
  then V3.save_db o {| users := del user_id (users st); disk := disk st |}
  else (st, false).

(** [new_name != user['name']] : a [str] against a stored value *)
Definition differs (s : string) (v : value) : bool :=
  match v with
  | VStr s' => negb (String.eqb s s')
  | _ => true
  end.

(** How a run of [_rename_user] ends. *)
Inductive rename_outcome : Type :=
| RenameUnknownUser
| RenameSkipped
| Renamed
| RenameNotSaved.

(** [FaceRecognitionApp._rename_user]; [new_name] is what the name entry
    returned.  The title of the name entry reads [user['name']] first.
    [user] is the record object held by the table. *)
Definition _rename_user (user_id new_name : string) (o : io) (st : state)
    : result (state * rename_outcome) :=
  match V3.get_user user_id st with
  | None => Ret (st, RenameUnknownUser)
  | Some [] => Ret (st, RenameUnknownUser)
  | Some (fld :: flds) =>
      let user := fld :: flds in
      match get "name" user with
      | None => Raise KeyError
      | Some old_name =>
          if nonempty (list_ascii_of_string new_name) && differs new_name old_name then
            let user1 := set "name" (VStr new_name) user in
            let st1 := {| users := set user_id user1 (users st); disk := disk st |} in
            let (st2, ok) := V3.save_db o st1 in
            Ret (st2, if ok then Renamed else RenameNotSaved)
          else Ret (st, RenameSkipped)
      end
  end.

End V3Store.

(** ** Draft 3: settings *)

Module V3Settings.

(** [FaceRecognitionApp._toggle_liveness_detection] *)
Definition _toggle_liveness_detection (cfg : V3.Config) : V3.Config :=
  if V3.LIVENESS_TIMEOUT cfg >? 0 then
    {| V3.MIN_FACE_SIZE := V3.MIN_FACE_SIZE cfg;
       V3.REGISTRATION_SAMPLES := V3.REGISTRATION_SAMPLES cfg;
       V3.SIMILARITY_THRESHOLD := V3.SIMILARITY_THRESHOLD cfg;
       V3.LIVENESS_TIMEOUT := 0 |}
  else
    {| V3.MIN_FACE_SIZE := V3.MIN_FACE_SIZE cfg;
       V3.REGISTRATION_SAMPLES := V3.REGISTRATION_SAMPLES cfg;
       V3.SIMILARITY_THRESHOLD := V3.SIMILARITY_THRESHOLD cfg;
       V3.LIVENESS_TIMEOUT := 5000 |}.

(** The answers of the four buttons in one turn of a polling loop, in the
    order the loop asks: up, down, select, back; and of the two long-press
    polls of the name entry. *)
Record pad : Type := {
  p_up : bool;
  p_down : bool;
  p_select : bool;
  p_back : bool;
  p_up_long : bool;
  p_down_long : bool
}.

(** The loop of [_adjust_threshold].  [None]: the polls ran out. *)
Fixpoint adjust_loop (cfg : V3.Config) (current_threshold : R) (polls : list pad)
    : option V3.Config :=
  match polls with
  | [] => None
  | p :: polls' =>
      if p_up p then adjust_loop cfg (Rmin 1 (current_threshold + 1 / 10)) polls'
      else if p_down p then adjust_loop cfg (Rmax (1 / 10) (current_threshold - 1 / 10)) polls'
      else if p_select p then
        Some {| V3.MIN_FACE_SIZE := V3.MIN_FACE_SIZE cfg;
                V3.REGISTRATION_SAMPLES := V3.REGISTRATION_SAMPLES cfg;
                V3.SIMILARITY_THRESHOLD := current_threshold;
                V3.LIVENESS_TIMEOUT := V3.LIVENESS_TIMEOUT cfg |}
      else if p_back p then Some cfg
      else adjust_loop cfg current_threshold polls'
  end.

(** [FaceRecognitionApp._adjust_threshold] *)
Definition _adjust_threshold (cfg : V3.Config) (polls : list pad) : option V3.Config :=
  adjust_loop cfg (V3.SIMILARITY_THRESHOLD cfg) polls.

End V3Settings.

(** ** Draft 3: buttons, menus and the name entry *)

Module V3Panel.

Import V3Settings.

(** [class Button]: what the two detectors keep between calls *)
Record Button : Type := {
  last_state : Z;
  pressed_time : Z;
  long_press_threshold : Z
}.

(** [Button.__init__] *)
Definition new_button : Button :=
  {| last_state := 1; pressed_time := 0; long_press_threshold := 1000 |}.

(** What one call reads: the pin, the pin again after the debounce sleep, and
    [time.ticks_ms()]. *)
Record pin_poll : Type := { pin_first : Z; pin_after : Z; pin_now : Z }.

(** [Button.is_pressed] *)
Definition is_pressed (p : pin_poll) (b : Button) : Button * bool :=
  if (pin_first p =? 0) && (last_state b =? 1) then
    if pin_after p =? 0 then
      ({| last_state := 0; pressed_time := pin_now p;
          long_press_threshold := long_press_threshold b |}, true)
    else (b, false)
  else if (pin_first p =? 1) && (last_state b =? 0) then
    ({| last_state := 1; pressed_time := pressed_time b;
        long_press_threshold := long_press_threshold b |}, false)
  else (b, false).

(** [Button.is_long_pressed]; [ticks_diff] is the firmware's *)
Definition is_long_pressed (ticks_diff : Z -> Z -> Z) (p : pin_poll) (b : Button)
    : Button * bool :=
  if (pin_first p =? 0) && (last_state b =? 1) then
    if pin_after p =? 0 then
      ({| last_state := 0; pressed_time := pin_now p;
          long_press_threshold := long_press_threshold b |}, false)
    else (b, false)
  else if (pin_first p =? 0) && (last_state b =? 0) then
    if ticks_diff (pin_now p) (pressed_time b) >? long_press_threshold b then
      ({| last_state := 1; pressed_time := pressed_time b;
          long_press_threshold := long_press_threshold b |}, true)
    else (b, false)
  else if (pin_first p =? 1) && (last_state b =? 0) then
    ({| last_state := 1; pressed_time := pressed_time b;
        long_press_threshold := long_press_threshold b |}, false)
  else (b, false).

(** One call on a button, with what it reads: [is_pressed] or
    [is_long_pressed]. *)
Inductive call : Type :=
| Short (p : pin_poll)
| Long (p : pin_poll).

Definition reads (c : call) : pin_poll :=
  match c with
  | Short p => p
  | Long p => p
  end.

(** The answers of successive calls on one button, in order. *)
Fixpoint poll_calls (ticks_diff : Z -> Z -> Z) (calls : list call) (b : Button)
    : list bool :=
  match calls with
  | [] => []
  | c :: calls' =>
      let (b', answer) :=
        match c with
        | Short p => is_pressed p b
        | Long p => is_long_pressed ticks_diff p b
        end in
      answer :: poll_calls ticks_diff calls' b'
  end.

(** [a % n] on [int] *)
Definition py_mod (a n : Z) : result Z :=
  if n =? 0 then Raise ZeroDivisionError else Ret (a mod n).

(** What [Menu.show] returns: the value of the action mapped at the selected
    index, the selected index itself, or -1. *)
Inductive menu_result : Type :=
| ActionAt (index : Z)
| Index (index : Z)
| MinusOne.

(** [Menu.show]: the loop, from the cursor the menu object holds.  The result
    comes with the cursor left in the object.  [None]: the polls ran out. *)
Fixpoint show (options : list string) (action_map : list Z) (selected : Z)
    (polls : list pad) : option (result (Z * menu_result)) :=
  match polls with
  | [] => None
  | p :: polls' =>
      if p_up p then
        match py_mod (selected - 1) (Z.of_nat (List.length options)) with
        | Raise e => Some (Raise e)
        | Ret selected' => show options action_map selected' polls'
        end
      else if p_down p then
        match py_mod (selected + 1) (Z.of_nat (List.length options)) with
        | Raise e => Some (Raise e)
        | Ret selected' => show options action_map selected' polls'
        end
      else if p_select p then
        if existsb (Z.eqb selected) action_map
        then Some (Ret (selected, ActionAt selected))
        else Some (Ret (selected, Index selected))
      else if p_back p then Some (Ret (selected, MinusOne))
      else show options action_map selected polls'
  end.

(** [ChineseInput.CHAR_SETS]; a character is kept as the string of its bytes *)
Definition CHAR_SETS : list (list string) :=
  [
    [ "赵"; "钱"; "孙"; "李"; "周"; "吴"; "郑"; "王"; "冯"; "陈"; "褚"; "卫"; "蒋"; "沈"; "韩"; "杨" ];
    [ "朱"; "秦"; "尤"; "许"; "何"; "吕"; "施"; "张"; "孔"; "曹"; "严"; "华"; "金"; "魏"; "陶"; "姜" ];
    [ "戚"; "谢"; "邹"; "喻"; "柏"; "水"; "窦"; "章"; "云"; "苏"; "潘"; "葛"; "奚"; "范"; "彭"; "郎" ];
    [ "鲁"; "韦"; "昌"; "马"; "苗"; "凤"; "花"; "方"; "俞"; "任"; "袁"; "柳"; "酆"; "鲍"; "史"; "唐" ];
    [ "费"; "廉"; "岑"; "薛"; "雷"; "贺"; "倪"; "汤"; "滕"; "殷"; "罗"; "毕"; "郝"; "邬"; "安"; "常" ];
    [ "乐"; "于"; "时"; "傅"; "皮"; "卞"; "齐"; "康"; "伍"; "余"; "元"; "卜"; "顾"; "孟"; "平"; "黄" ];
    [ "和"; "穆"; "萧"; "尹"; "姚"; "邵"; "湛"; "汪"; "祁"; "毛"; "禹"; "狄"; "米"; "贝"; "明"; "臧" ];
    [ "计"; "伏"; "成"; "戴"; "谈"; "宋"; "茅"; "庞"; "熊"; "纪"; "舒"; "屈"; "项"; "祝"; "董"; "梁" ]
  ].

(** [seq[i]] *)
Definition py_index {A : Type} (l : list A) (i : Z) : result A :=
  let n := Z.of_nat (List.length l) in
  let j := if i <? 0 then i + n else i in
  if (j <? 0) || (n <=? j) then Raise IndexError
  else
    match nth_error l (Z.to_nat j) with
    | Some a => Ret a
    | None => Raise IndexError
    end.

(** The loop of [ChineseInput.input]; the text is kept as the list of its
    characters and [page] stays 0.  [None]: the polls ran out. *)
Fixpoint input_loop (max_length : nat) (current_text : list string) (selected : Z)
    (polls : list pad) : option (result (list string)) :=
  let page := 0%nat in
  match polls with
  | [] => None
  | p :: polls' =>
      if p_up p then
        match (row <- py_index CHAR_SETS (Z.of_nat page) ;;
               py_mod (selected - 1) (Z.of_nat (List.length row))) with
        | Raise e => Some (Raise e)
        | Ret selected' => input_loop max_length current_text selected' polls'
        end
      else if p_down p then
        match (row <- py_index CHAR_SETS (Z.of_nat page) ;;
               py_mod (selected + 1) (Z.of_nat (List.length row))) with
        | Raise e => Some (Raise e)
        | Ret selected' => input_loop max_length current_text selected' polls'
        end
      else if p_select p then
        if Nat.ltb page (List.length CHAR_SETS)
           && Nat.ltb (List.length current_text) max_length
        then
          match (row <- py_index CHAR_SETS (Z.of_nat page) ;; py_index row selected) with
          | Raise e => Some (Raise e)
          | Ret c => input_loop max_length (current_text ++ [c]) selected polls'
          end
        else input_loop max_length current_text selected polls'
      else if p_back p then
        if nonempty current_text
        then input_loop max_length (removelast current_text) selected polls'
        else Some (Ret [])
      else if p_up_long p && p_down_long p then
        if nonempty current_text then Some (Ret current_text)
        else input_loop max_length current_text selected polls'
      else input_loop max_length current_text selected polls'
  end.

(** [ChineseInput.input] *)
Definition input (max_length : nat) (polls : list pad) : option (result (list string)) :=
  input_loop max_length [] 0 polls.

End V3Panel.

(** ** Reading a trace of the sample loop *)

(** The sample [smp] was taken from one of the frames: "up" was pressed on a
    frame whose largest face was at least [MIN_FACE_SIZE] wide and high, and
    the extractor gave the non-empty vector [smp] for it. *)
Definition accepted_from (cfg : V3.Config) (frames : list V3.capture_tick) (smp : list R)
    : Prop :=
  smp <> []
  /\ exists tk f0 fs,
       In tk frames
       /\ V3.c_up tk = true
       /\ V3.c_features tk = Some smp
       /\ V3.c_faces tk = f0 :: fs
       /\ V3.MIN_FACE_SIZE cfg <= V3.width (V3.max_by V3.area f0 fs)
       /\ V3.MIN_FACE_SIZE cfg <= V3.height (V3.max_by V3.area f0 fs).

(** ** Sample data *)

(** A record as draft 3 writes it. *)
Definition sample_user (name : string) (features : list R) : user_data :=
  [ ("name", VStr name);
    ("features", VFloats features);
    ("registered_at", VStr "(2024, 1, 1, 0, 0, 0, 0, 1)");
    ("samples_count", VInt 1) ].

Definition e1 : list R := [1%R; 0%R; 0%R].
Definition e2 : list R := [0%R; 1%R; 0%R].

Definition sample_clock : clock :=
  {| ticks_ms := 1000; localtime := "(2024, 1, 1, 0, 0, 0, 0, 1)" |}.

Definition empty_state : state := {| users := []; disk := None |}.

(** A frame with one face of 100 by 100 and a usable vector [[1,0,0]]. *)
Definition shot (up back : bool) : V3.capture_tick :=
  {| V3.c_faces := [(10, 10, 100, 100)];
     V3.c_up := up;
     V3.c_features := Some e1;
     V3.c_back := back |}.

(** A frame of the liveness loop with one face. *)
Definition glance (now : Z) (eyes : list V3.rect) : V3.live_tick :=
  {| V3.l_now := now;
     V3.l_faces := [(10, 10, 100, 100)];
     V3.l_eyes := eyes;
     V3.l_back := false |}.

(** Eyes seen at 1100 ms, gone at 1200 ms. *)
Definition blink : list V3.live_tick :=
  [glance 1100 [(30, 30, 10, 10)]; glance 1200 []].

(** "Ada" takes three shots, ends the collection with "back", and blinks. *)
Definition ada_env (o : io) : V3.enrollment_env :=
  {| V3.e_name := "Ada";
     V3.e_capture := [shot true false; shot true false; shot true true];
     V3.e_live_start := 1000;
     V3.e_live := blink;
     V3.e_now := sample_clock;
     V3.e_io := o |}.

(** ** Record layouts *)

(** The layout the specification gives for a persisted record: fields
    [name], [descriptor], [registered_at] and [sample_count], and no other. *)
Definition spec_layout (data : user_data) : Prop :=
  exists name descriptor registered_at sample_count,
    get "name" data = Some (VStr name)
    /\ get "descriptor" data = Some (VFloats descriptor)
    /\ get "registered_at" data = Some (VStr registered_at)
    /\ get "sample_count" data = Some (VInt sample_count)
    /\ List.length data = 4%nat.

(** The layout draft 3 (and 4) writes. *)
Definition v3_layout (data : user_data) : Prop :=
  exists name features registered_at samples_count,
    data = [ ("name", VStr name);
             ("features", VFloats features);
             ("registered_at", VStr registered_at);
             ("samples_count", VInt samples_count) ].

(** The layout drafts 1 and 2 write. *)
Definition v2_layout (data : user_data) : Prop :=
  exists name descriptor registration_time samples_count,
    data = [ ("name", VStr name);
             ("descriptor", VFloats descriptor);
             ("registration_time", VStr registration_time);
             ("samples_count", VInt samples_count) ].

(** ** Reading a liveness trace *)

(** A face is detected and eyes are found in it. *)
Definition eyes_present (tk : V3.live_tick) : bool :=
  nonempty (V3.l_faces tk) && nonempty (V3.l_eyes tk).

(** A face is detected and no eyes are found in it. *)
Definition eyes_absent (tk : V3.live_tick) : bool :=
  nonempty (V3.l_faces tk) && negb (nonempty (V3.l_eyes tk)).

(** The loop test of [_liveness_detection] at this frame. *)
Definition in_window (ticks_diff : Z -> Z -> Z) (cfg : V3.Config) (start_time : Z)
    (tk : V3.live_tick) : bool :=
  ticks_diff (V3.l_now tk) start_time <? V3.LIVENESS_TIMEOUT cfg.

(** * Properties *)

(** ** The cosine over the reals: the value when both norms are non-zero *)

Section Cosine.
Local Open Scope R_scope.

Lemma norm_nonneg (l : list R) : 0 <= norm l.
Proof. apply sqrt_pos. Qed.

Lemma norm_product_pos (a b : list R) : norm a <> 0 -> norm b <> 0 -> 0 < norm a * norm b.
Proof.
  intros Ha Hb.
  pose proof (norm_nonneg a). pose proof (norm_nonneg b).
  apply Rmult_lt_0_compat; lra.
Qed.

(** The value [cosine_similarity] returns when both norms are non-zero. *)
Lemma cosine_similarity_nonzero (a b : list R) :
  norm a <> 0 -> norm b <> 0 ->
  cosine_similarity a b = Ret (dot a b / (norm a * norm b)).
Proof.
  intros Ha Hb. unfold cosine_similarity, py_div.
  destruct (Req_dec_T (norm a) 0) as [E|_]; [contradiction|].
  destruct (Req_dec_T (norm b) 0) as [E|_]; [contradiction|].
  pose proof (norm_product_pos a b Ha Hb).
  destruct (Req_dec_T (norm a * norm b) 0) as [E|_]; [lra|reflexivity].
Qed.

End Cosine.

(** ** Dict lookups *)

Section DictFacts.
Context {V : Type}.

Lemma get_In (k : string) (v : V) (d : dict V) : get k d = Some v -> In (k, v) d.
Proof.
  induction d as [|[k' v'] d IH]; simpl; [discriminate|].
  destruct (String.eqb_spec k k') as [->|Hne]; intros H.
  - injection H as ->. now left.
  - right. now apply IH.
Qed.

Lemma In_keys (k : string) (v : V) (d : dict V) : In (k, v) d -> In k (keys d).
Proof.
  intros H. unfold keys. change k with (fst (k, v)). now apply in_map.
Qed.

Lemma get_None_not_key (k : string) (d : dict V) : get k d = None <-> ~ In k (keys d).
Proof.
  induction d as [|[k' v'] d IH]; simpl.
  - tauto.
  - destruct (String.eqb_spec k k') as [->|Hne].
    + split; [discriminate | intros H; exfalso; apply H; now left].
    + rewrite IH. split; intros H; [intros [E|E]; [congruence|tauto] | tauto].
Qed.

(** In a dict, the record found under a key is the only one stored under it. *)
Lemma wf_In_get (k : string) (v : V) (d : dict V) : wf d -> In (k, v) d -> get k d = Some v.
Proof.
  unfold wf. induction d as [|[k' v'] d IH]; simpl; intros Hnd Hin; [contradiction|].
  inversion Hnd as [|? ? Hnotin Hnd']; subst.
  destruct Hin as [E|Hin].
  - injection E as -> ->. now rewrite String.eqb_refl.
  - destruct (String.eqb_spec k k') as [->|Hne].
    + exfalso. apply Hnotin. now apply In_keys with (v := v).
    + now apply IH.
Qed.

Lemma get_set_same (k : string) (v : V) (d : dict V) : get k (set k v d) = Some v.
Proof.
  induction d as [|[k' v'] d IH]; simpl.
  - now rewrite String.eqb_refl.
  - destruct (String.eqb_spec k k') as [->|Hne]; simpl.
    + now rewrite String.eqb_refl.
    + destruct (String.eqb_spec k k'); [contradiction|exact IH].
Qed.

Lemma get_set_other (k k0 : string) (v : V) (d : dict V) :
  k0 <> k -> get k0 (set k v d) = get k0 d.
Proof.
  intros Hne. induction d as [|[k' v'] d IH]; simpl.
  - destruct (String.eqb_spec k0 k); [contradiction|reflexivity].
  - destruct (String.eqb_spec k k') as [->|Hne']; simpl.
    + destruct (String.eqb_spec k0 k'); [contradiction|reflexivity].
    + now rewrite IH.
Qed.

Lemma mem_set_same (k : string) (v : V) (d : dict V) : mem k (set k v d) = true.
Proof. unfold mem. now rewrite get_set_same. Qed.

Lemma get_del_same (k : string) (d : dict V) : wf d -> get k (del k d) = None.
Proof.
  unfold wf. induction d as [|[k' v'] d IH]; simpl; intros Hnd; [reflexivity|].
  inversion Hnd as [|? ? Hnotin Hnd']; subst.
  destruct (String.eqb_spec k k') as [->|Hne]; simpl.
  - now apply get_None_not_key.
  - destruct (String.eqb_spec k k'); [contradiction|now apply IH].
Qed.

Lemma keys_set (k : string) (v : V) (d : dict V) :
  keys (set k v d) = if mem k d then keys d else (keys d ++ [k]).
Proof.
  unfold mem. induction d as [|[k' v'] d IH]; simpl; [reflexivity|].
  destruct (String.eqb_spec k k') as [->|Hne]; simpl; [reflexivity|].
  rewrite IH. now destruct (get k d).
Qed.

Lemma wf_set (k : string) (v : V) (d : dict V) : wf d -> wf (set k v d).
Proof.
  unfold wf. intros Hnd. rewrite keys_set. unfold mem.
  destruct (get k d) eqn:E; [exact Hnd|].
  apply get_None_not_key in E.
  apply NoDup_app; [exact Hnd | constructor; [intros []|constructor] |].
  intros x Hx [<-|[]]. contradiction.
Qed.

End DictFacts.

(** ** The matcher *)

Section Matcher.
Local Open Scope R_scope.

Variable key : string.
Variable probe : list R.

(** Whatever id the loop returns is either the one it started with or the id
    of a record it visited whose similarity exceeds the starting bound. *)
Lemma scan_users_sound (items : list (string * user_data)) :
  forall (highest : R) (best r : option string),
    scan_users key probe items highest best = Ret r ->
    r = best
    \/ exists user_id data s,
         r = Some user_id /\ In (user_id, data) items
         /\ similarity_of key probe data s /\ s > highest.
Proof.
  induction items as [|[user_id data] items IH]; intros highest best r; simpl.
  - intros H. injection H as <-. now left.
  - destruct (get key data) as [v|] eqn:Eget; [|discriminate].
    destruct (as_vector v) as [known|e] eqn:Evec; [|discriminate]. simpl.
    destruct (cosine_similarity probe known) as [s|e] eqn:Ecos; [|discriminate].
    destruct (Rgt_dec s highest) as [Hgt|Hle]; intros H; apply IH in H.
    + right. destruct H as [->|(u & d & s' & -> & Hin & Hsim & Hs')].
      * exists user_id, data, s. repeat split; auto. exists v, known. auto.
      * exists u, d, s'. repeat split; auto. lra.
    + destruct H as [->|(u & d & s' & -> & Hin & Hsim & Hs')]; [now left|].
      right. exists u, d, s'. repeat split; auto.
Qed.

(** Records that score strictly below [m] leave the running maximum below [m]. *)
Lemma scan_users_below (pre rest : list (string * user_data)) (m : R) :
  Forall (fun item => exists s, similarity_of key probe (snd item) s /\ s < m) pre ->
  forall (highest : R) (best : option string),
    highest < m ->
    exists highest' best',
      highest' < m
      /\ scan_users key probe (pre ++ rest) highest best
         = scan_users key probe rest highest' best'.
Proof.
  induction 1 as [|[user_id data] pre (s & (v & known & Eget & Evec & Ecos) & Hs) _ IH];
    intros highest best Hh; simpl.
  - exists highest, best. auto.
  - simpl in Eget. rewrite Eget, Evec. simpl. rewrite Ecos.
    destruct (Rgt_dec s highest); apply IH; assumption.
Qed.

(** Records that score at most the running maximum do not replace it. *)
Lemma scan_users_keep (post : list (string * user_data)) (m : R) (best : option string) :
  Forall (fun item => exists s, similarity_of key probe (snd item) s /\ s <= m) post ->
  scan_users key probe post m best = Ret best.
Proof.
  induction 1 as [|[user_id data] post (s & (v & known & Eget & Evec & Ecos) & Hs) _ IH];
    simpl.
  - reflexivity.
  - simpl in Eget. rewrite Eget, Evec. simpl. rewrite Ecos.
    destruct (Rgt_dec s m); [lra|exact IH].
Qed.

(** The first record that attains the maximum wins. *)
Lemma scan_users_first_max (pre post : list (string * user_data))
    (user_id : string) (data : user_data) (m threshold : R) :
  Forall (fun item => exists s, similarity_of key probe (snd item) s /\ s < m) pre ->
  similarity_of key probe data m ->
  m > threshold ->
  Forall (fun item => exists s, similarity_of key probe (snd item) s /\ s <= m) post ->
  scan_users key probe (pre ++ (user_id, data) :: post) threshold None
  = Ret (Some user_id).
Proof.
  intros Hpre (v & known & Eget & Evec & Ecos) Hm Hpost.
  destruct (scan_users_below pre ((user_id, data) :: post) m Hpre threshold None)
    as (h' & b' & Hh' & ->); [lra|].
  simpl. rewrite Eget, Evec. simpl. rewrite Ecos.
  destruct (Rgt_dec m h'); [|lra].
  now apply scan_users_keep.
Qed.

End Matcher.

Section MatcherClaims.
Local Open Scope R_scope.

(** C3.  When [find_user_by_features] returns an id, the table holds a record
    under that id whose cosine similarity to the probe is strictly greater
    than the threshold, hence not [<=] it; equality does not match. *)
Theorem find_user_by_features_above_threshold
    (features : option (list R)) (threshold : R) (table : user_table) (user_id : string) :
  wf table ->
  V3.find_user_by_features features threshold table = Ret (Some user_id) ->
  exists p data s,
    features = Some p
    /\ get user_id table = Some data
    /\ similarity_of "features" p data s
    /\ s > threshold /\ ~ s <= threshold.
Proof.
  intros Hwf H. unfold V3.find_user_by_features in H.
  destruct features as [[|x xs]|]; try discriminate.
  apply scan_users_sound in H.
  destruct H as [H|(u & data & s & Hu & Hin & Hsim & Hs)]; [discriminate|].
  injection Hu as ->.
  exists (x :: xs), data, s.
  repeat split; auto using wf_In_get; lra.
Qed.

(** C10.  For a non-empty probe: when the record stored under [user_id]
    attains the maximal similarity [m], [m] is strictly greater than the
    threshold, every record before it in the table's order scores strictly
    less and every record after it scores at most [m] (ties included),
    [find_user_by_features] returns [user_id]: the first record attaining the
    maximum wins. *)
Theorem find_user_by_features_first_of_ties
    (x : R) (xs : list R) (threshold m : R)
    (pre post : list (string * user_data)) (user_id : string) (data : user_data) :
  Forall (fun item => exists s, similarity_of "features" (x :: xs) (snd item) s /\ s < m) pre ->
  similarity_of "features" (x :: xs) data m ->
  m > threshold ->
  Forall (fun item => exists s, similarity_of "features" (x :: xs) (snd item) s /\ s <= m) post ->
  V3.find_user_by_features (Some (x :: xs)) threshold (pre ++ (user_id, data) :: post)
  = Ret (Some user_id).
Proof.
  intros Hpre Hdata Hm Hpost. unfold V3.find_user_by_features.
  now apply scan_users_first_max with (m := m).
Qed.

(** The loops of drafts 1 and 2 obey the same two rules. *)
Lemma recognize_face_above_threshold
    (descriptor : option (list R)) (threshold : R) (user_db : user_table) (user_id : string) :
  wf user_db ->
  V1.recognize_face descriptor threshold user_db = Ret (Some user_id) ->
  exists p data s,
    descriptor = Some p /\ get user_id user_db = Some data
    /\ similarity_of "descriptor" p data s /\ s > threshold.
Proof.
  intros Hwf H. unfold V1.recognize_face in H.
  destruct descriptor as [p|]; [|discriminate].
  apply scan_users_sound in H.
  destruct H as [H|(u & data & s & Hu & Hin & Hsim & Hs)]; [discriminate|].
  injection Hu as ->. exists p, data, s. auto using wf_In_get.
Qed.

Lemma recognize_face_first_of_ties
    (p : list R) (threshold m : R)
    (pre post : list (string * user_data)) (user_id : string) (data : user_data) :
  Forall (fun item => exists s, similarity_of "descriptor" p (snd item) s /\ s < m) pre ->
  similarity_of "descriptor" p data m ->
  m > threshold ->
  Forall (fun item => exists s, similarity_of "descriptor" p (snd item) s /\ s <= m) post ->
  V1.recognize_face (Some p) threshold (pre ++ (user_id, data) :: post) = Ret (Some user_id)
  /\ V2._recognize_face (Some p) threshold (pre ++ (user_id, data) :: post) = Ret (Some user_id).
Proof.
  intros Hpre Hdata Hm Hpost. unfold V1.recognize_face, V2._recognize_face.
  split; now apply scan_users_first_max with (m := m).
Qed.

End MatcherClaims.

Section MatcherExamples.
Local Open Scope R_scope.

Lemma norm_e1 : norm e1 = 1.
Proof.
  unfold norm, e1, py_sum. simpl.
  replace (0 + 1 * 1 + 0 * 0 + 0 * 0) with 1 by lra. apply sqrt_1.
Qed.

Lemma norm_e2 : norm e2 = 1.
Proof.
  unfold norm, e2, py_sum. simpl.
  replace (0 + 0 * 0 + 1 * 1 + 0 * 0) with 1 by lra. apply sqrt_1.
Qed.

Lemma cosine_e1_e1 : cosine_similarity e1 e1 = Ret 1.
Proof.
  rewrite cosine_similarity_nonzero; rewrite ?norm_e1; try lra.
  f_equal. unfold dot, e1, py_sum. simpl. field.
Qed.

Lemma cosine_e2_e1 : cosine_similarity e2 e1 = Ret 0.
Proof.
  rewrite cosine_similarity_nonzero; rewrite ?norm_e1, ?norm_e2; try lra.
  f_equal. unfold dot, e1, e2, py_sum. simpl. field.
Qed.

(** The probe [[1,0,0]] matches a record holding [[1,0,0]] at threshold 0.5. *)
Lemma find_user_same_vector :
  V3.find_user_by_features (Some e1) (5 / 10) [("1000", sample_user "Ada" e1)]
  = Ret (Some "1000"%string).
Proof.
  unfold V3.find_user_by_features, e1 at 1. fold e1.
  simpl. rewrite cosine_e1_e1.
  destruct (Rgt_dec 1 (5 / 10)) as [_|H]; [reflexivity | exfalso; lra].
Qed.

(** The probe [[0,1,0]] does not match it. *)
Lemma find_user_orthogonal_vector :
  V3.find_user_by_features (Some e2) (5 / 10) [("1000", sample_user "Ada" e1)]
  = Ret None.
Proof.
  unfold V3.find_user_by_features, e2 at 1. fold e2.
  simpl. rewrite cosine_e2_e1.
  destruct (Rgt_dec 0 (5 / 10)) as [H|_]; [exfalso; lra | reflexivity].
Qed.

Lemma wf_singleton {V : Type} (k : string) (v : V) : wf [(k, v)].
Proof. unfold wf. simpl. constructor; [intros [] | constructor]. Qed.

Lemma find_user_by_features_above_threshold_witness :
  exists p data s,
    Some e1 = Some p
    /\ get "1000" [("1000", sample_user "Ada" e1)] = Some data
    /\ similarity_of "features" p data s
    /\ s > 5 / 10 /\ ~ s <= 5 / 10.
Proof.
  apply (find_user_by_features_above_threshold
           (Some e1) (5 / 10) [("1000", sample_user "Ada" e1)] "1000").
  - apply wf_singleton.
  - exact find_user_same_vector.
Defined.

Lemma similarity_sample_e1 (name : string) :
  similarity_of "features" e1 (sample_user name e1) 1.
Proof. exists (VFloats e1), e1. repeat split. exact cosine_e1_e1. Qed.

Lemma find_user_by_features_first_of_ties_witness :
  V3.find_user_by_features (Some e1) (5 / 10)
    ([] ++ ("1000", sample_user "Ada" e1) :: [("2000", sample_user "Bob" e1)])
  = Ret (Some "1000"%string).
Proof.
  apply (find_user_by_features_first_of_ties 1 [0; 0] (5 / 10) 1
           [] [("2000", sample_user "Bob" e1)] "1000" (sample_user "Ada" e1)).
  - constructor.
  - exact (similarity_sample_e1 "Ada").
  - lra.
  - constructor; [|constructor].
    exists 1. split; [exact (similarity_sample_e1 "Bob") | lra].
Defined.

End MatcherExamples.

(** ** The store: [add_user] *)

Section Store.

Lemma str_1000 : str 1000 = "1000".
Proof. reflexivity. Qed.

(** C1.  When the write fails, [add_user] (draft 3) and [add] (draft 2)
    report failure, and the record inserted under the new id is still in the
    table: nothing takes it out again. *)
Theorem add_user_failed_save_keeps_record
    (name : string) (features : list R) (now : clock) (leftover : file) (st : state) :
  let user_id := str (ticks_ms now) in
  (snd (V3.add_user name features now (IoError leftover) st) = (false, user_id)
   /\ mem user_id (users (fst (V3.add_user name features now (IoError leftover) st))) = true)
  /\ (snd (V2.add name features now (IoError leftover) st) = (false, user_id)
      /\ mem user_id (users (fst (V2.add name features now (IoError leftover) st))) = true).
Proof.
  simpl. repeat split; apply mem_set_same.
Qed.

(** Draft 1 does take the record out when the write fails. *)
Lemma registration_commit_failed_save_reverts
    (name : string) (samples : list (list R)) (now : clock) (leftover : file)
    (st st' : state) (ok : bool) :
  wf (users st) ->
  V1.registration_commit name samples now (IoError leftover) st = Ret (st', ok) ->
  ok = false /\ mem (str (ticks_ms now)) (users st') = false.
Proof.
  intros Hwf H. unfold V1.registration_commit in H.
  destruct (avg_features samples) as [avg|e]; simpl in H; [|discriminate].
  rewrite mem_set_same in H. injection H as <- <-. split; [reflexivity|].
  simpl. unfold mem. rewrite get_del_same; [reflexivity|].
  now apply wf_set.
Qed.

(** C5.  The table holds Ada under the id ["1000"]; the clock reads 1000
    again when Bob is added.  The new id is ["1000"], a key of the table at
    the moment of insertion, and Bob's record takes the place of Ada's. *)
Theorem add_user_id_collides :
  let st := {| users := [("1000", sample_user "Ada" e1)]; disk := None |} in
  let result := V3.add_user "Bob" e2 sample_clock IoOk st in
  snd result = (true, "1000")
  /\ mem "1000" (users st) = true
  /\ users (fst result) = [("1000", sample_user "Bob" e2)]
  /\ disk (fst result) = Some [("1000", sample_user "Bob" e2)].
Proof.
  repeat split.
Qed.

(** Whenever the decimal form of the clock reading is already a key, the
    insertion replaces the record kept under it and adds no key. *)
Lemma add_user_overwrites (name : string) (features : list R) (now : clock) (o : io)
    (st : state) :
  mem (str (ticks_ms now)) (users st) = true ->
  keys (users (fst (V3.add_user name features now o st))) = keys (users st).
Proof.
  intros H. unfold V3.add_user, V3.save_db.
  destruct o; simpl; rewrite keys_set, H; reflexivity.
Qed.

(** C4 as stated fails: the record [add_user] writes for Ada has no
    [sample_count] and no [descriptor] field. *)
Lemma add_user_layout_counterexample :
  exists table data,
    disk (fst (V3.add_user "Ada" e1 sample_clock IoOk empty_state)) = Some table
    /\ get "1000" table = Some data
    /\ ~ spec_layout data.
Proof.
  exists [("1000", sample_user "Ada" e1)], (sample_user "Ada" e1).
  repeat split.
  intros (n & d & r & c & _ & Hd & _). discriminate Hd.
Qed.

(** C4, amended.  After a successful [add_user] the file holds the table,
    the table holds under the new id a record with exactly the fields [name]
    (string), [features] (numbers), [registered_at] (string) and
    [samples_count] (integer), in this order, and reading the file back gives
    the table.  Draft 2 writes [descriptor] and [registration_time] in place
    of [features] and [registered_at]. *)
Theorem add_user_layout (name : string) (features : list R) (now : clock) (st : state) :
  (let st' := fst (V3.add_user name features now IoOk st) in
   disk st' = Some (users st')
   /\ V3._load_db (disk st') = users st'
   /\ exists data, get (str (ticks_ms now)) (users st') = Some data /\ v3_layout data)
  /\ (let st' := fst (V2.add name features now IoOk st) in
      disk st' = Some (users st')
      /\ exists data, get (str (ticks_ms now)) (users st') = Some data /\ v2_layout data).
Proof.
  simpl. repeat split.
  - eexists. split; [apply get_set_same|]. unfold v3_layout. eauto.
  - eexists. split; [apply get_set_same|]. unfold v2_layout. eauto.
Qed.

End Store.

(** ** Averaging *)

Section Averaging.
Local Open Scope R_scope.

Lemma mapM_pointwise {A B : Type} (f : A -> result B) (g : A -> B) (l : list A) :
  (forall a, In a l -> f a = Ret (g a)) -> mapM f l = Ret (map g l).
Proof.
  induction l as [|a l IH]; intros H; simpl; [reflexivity|].
  rewrite (H a) by now left. simpl.
  rewrite IH by (intros; apply H; now right). reflexivity.
Qed.

Lemma py_div_nonzero (x y : R) : y <> 0 -> py_div x y = Ret (x / y).
Proof.
  intros Hy. unfold py_div. destruct (Req_dec_T y 0); [contradiction|reflexivity].
Qed.

(** No index is out of range when every sample has [d] components. *)
Lemma column_in_range (d i : nat) (samples : list (list R)) :
  Forall (fun f => List.length f = d) samples ->
  (i < d)%nat ->
  column i samples = Ret (map (fun f => nth i f 0) samples).
Proof.
  intros Hall Hi. induction Hall as [|f samples Hf _ IH]; simpl; [reflexivity|].
  destruct (nth_error f i) as [x|] eqn:E.
  - rewrite IH. simpl. now rewrite (nth_error_nth f i 0 E).
  - apply nth_error_None in E. lia.
Qed.

Lemma avg_features_mean (d : nat) (s : list R) (ss : list (list R)) :
  Forall (fun f => List.length f = d) (s :: ss) ->
  avg_features (s :: ss) = Ret (map (mean_component (s :: ss)) (seq 0 d)).
Proof.
  intros Hall. unfold avg_features.
  inversion Hall as [|? ? Hs _]; subst.
  apply mapM_pointwise. intros i Hi. apply in_seq in Hi.
  rewrite (column_in_range (List.length s)) by (auto; lia). unfold bind. cbv beta iota.
  apply py_div_nonzero. apply not_0_INR. discriminate.
Qed.

End Averaging.

(** ** Enrollment *)

Section Enrollment.
Local Open Scope R_scope.

Variable ticks_diff : Z -> Z -> Z.

(** What a run that ends with a registered user went through. *)
Lemma registration_registered (cfg : V3.Config) (env : V3.enrollment_env)
    (st st' : state) (user_id : string) :
  V3._registration_mode ticks_diff cfg env st = (st', V3.Registered user_id) ->
  exists s ss avg,
    V3.collect cfg [] (V3.e_capture env) = Some (s :: ss)
    /\ V3._liveness_detection ticks_diff cfg (V3.e_live_start env) (V3.e_live env) = Some true
    /\ avg_features (s :: ss) = Ret avg
    /\ V3.add_user (V3.e_name env) avg (V3.e_now env) (V3.e_io env) st
       = (st', (true, user_id)).
Proof.
  unfold V3._registration_mode.
  destruct (V3.e_name env) as [|c name]; [discriminate|].
  destruct (V3.collect cfg [] (V3.e_capture env)) as [[|s ss]|] eqn:Ecol; try discriminate.
  destruct (V3._liveness_detection ticks_diff cfg (V3.e_live_start env) (V3.e_live env))
    as [[|]|] eqn:Elive; try discriminate.
  destruct (avg_features (s :: ss)) as [avg|e] eqn:Eavg; [|discriminate].
  destruct (V3.add_user (String c name) avg (V3.e_now env) (V3.e_io env) st)
    as [st2 [success uid]] eqn:Eadd.
  destruct success; intros H; [|discriminate].
  injection H as <- <-. exists s, ss, avg. auto.
Qed.

Lemma add_user_record (name : string) (features : list R) (now : clock) (o : io)
    (st st' : state) (ok : bool) (user_id : string) :
  V3.add_user name features now o st = (st', (ok, user_id)) ->
  get user_id (users st')
  = Some [ ("name", VStr name);
           ("features", VFloats features);
           ("registered_at", VStr (localtime now));
           ("samples_count", VInt 1) ].
Proof.
  unfold V3.add_user, V3.save_db.
  destruct o; intros H; injection H as <- _ <-; simpl; apply get_set_same.
Qed.

(** C6.  When a run of [_registration_mode] registers a user from samples
    that all have [d] components, the vector stored for that user has [d]
    components, and component [i] is the sum of the samples' components [i]
    divided by the number of samples. *)
Theorem registration_commits_mean (cfg : V3.Config) (env : V3.enrollment_env)
    (st st' : state) (user_id : string) (samples : list (list R)) (d : nat) :
  V3.collect cfg [] (V3.e_capture env) = Some samples ->
  Forall (fun f => List.length f = d) samples ->
  V3._registration_mode ticks_diff cfg env st = (st', V3.Registered user_id) ->
  (1 <= List.length samples)%nat
  /\ exists data avg,
       get user_id (users st') = Some data
       /\ get "features" data = Some (VFloats avg)
       /\ List.length avg = d
       /\ forall i, (i < d)%nat ->
            nth i avg 0
            = py_sum (map (fun f => nth i f 0) samples) / INR (List.length samples).
Proof.
  intros Hcol Hall Hreg.
  apply registration_registered in Hreg.
  destruct Hreg as (s & ss & avg & Hcol' & _ & Havg & Hadd).
  rewrite Hcol in Hcol'. injection Hcol' as ->.
  rewrite (avg_features_mean d) in Havg by assumption. injection Havg as <-.
  split; [simpl; lia|].
  apply add_user_record in Hadd.
  eexists. eexists. split; [exact Hadd|]. split; [reflexivity|]. split.
  - now rewrite length_map, length_seq.
  - intros i Hi.
    rewrite (nth_indep _ 0 (mean_component (s :: ss) 0%nat))
      by now rewrite length_map, length_seq.
    rewrite map_nth, seq_nth by assumption. reflexivity.
Qed.

(** C8.  A run of [_registration_mode] that ends because the name entry was
    cancelled, because no sample was collected, or because the liveness check
    failed leaves the table and the file as they were. *)
Theorem registration_aborted_leaves_store (cfg : V3.Config) (env : V3.enrollment_env)
    (st st' : state) (o : V3.reg_outcome) :
  V3._registration_mode ticks_diff cfg env st = (st', o) ->
  o = V3.Cancelled \/ o = V3.NoSamples \/ o = V3.LivenessFailed ->
  users st' = users st /\ disk st' = disk st /\ st' = st.
Proof.
  unfold V3._registration_mode.
  destruct (V3.e_name env) as [|c name].
  { intros H _. injection H as <- _. auto. }
  destruct (V3.collect cfg [] (V3.e_capture env)) as [[|s ss]|].
  1, 3: intros H _; injection H as <- _; auto.
  destruct (V3._liveness_detection ticks_diff cfg (V3.e_live_start env) (V3.e_live env))
    as [[|]|].
  2, 3: intros H _; injection H as <- _; auto.
  destruct (avg_features (s :: ss)) as [avg|e].
  - destruct (V3.add_user (String c name) avg (V3.e_now env) (V3.e_io env) st)
      as [st2 [[|] uid]]; intros H; injection H as _ <-;
      intros [E|[E|E]]; discriminate E.
  - intros H. injection H as _ <-. intros [E|[E|E]]; discriminate E.
Qed.

(** With a positive sample target the sample loop never hands back an empty
    list, so the "no sample" exit is not taken. *)
Lemma collect_nonempty (cfg : V3.Config) (frames : list V3.capture_tick) :
  (0 < V3.REGISTRATION_SAMPLES cfg)%nat ->
  forall samples collected,
    V3.collect cfg samples frames = Some collected ->
    (List.length samples <= List.length collected)%nat
    /\ (1 <= List.length collected)%nat.
Proof.
  intros Hpos. induction frames as [|tk frames IH]; intros samples collected; simpl.
  - destruct (Nat.ltb_spec (List.length samples) (V3.REGISTRATION_SAMPLES cfg)) as [Hlt|Hge];
      [discriminate|].
    intros H. injection H as <-. lia.
  - destruct (Nat.ltb_spec (List.length samples) (V3.REGISTRATION_SAMPLES cfg)) as [Hlt|Hge].
    2: { intros H. injection H as <-. lia. }
    assert (Hback : forall samples1,
               (List.length samples <= List.length samples1)%nat ->
               (if V3.c_back tk && nonempty samples1 then Some samples1
                else V3.collect cfg samples1 frames) = Some collected ->
               (List.length samples <= List.length collected)%nat
               /\ (1 <= List.length collected)%nat).
    { intros samples1 Hle.
      destruct (V3.c_back tk); simpl.
      - destruct samples1 as [|s1 ss1]; simpl.
        + intros H. apply IH in H. simpl in *. lia.
        + intros H. injection H as <-. simpl in *. lia.
      - intros H. apply IH in H. lia. }
    destruct (V3.c_faces tk) as [|f0 fs]; [apply Hback; lia|].
    destruct (V3.c_up tk); [|apply Hback; lia].
    destruct ((V3.width (V3.max_by V3.area f0 fs) <? V3.MIN_FACE_SIZE cfg)%Z
              || (V3.height (V3.max_by V3.area f0 fs) <? V3.MIN_FACE_SIZE cfg)%Z).
    { intros H. apply IH in H. lia. }
    destruct (V3.c_features tk) as [[|x xs]|]; try (apply Hback; lia).
    apply Hback. rewrite length_app. simpl. lia.
Qed.

End Enrollment.

(** ** The scenario of the specification: Ada enrolls with three shots *)

Section Scenario.
Local Open Scope R_scope.

Lemma ada_collects_three (o : io) :
  V3.collect V3.default_config [] (V3.e_capture (ada_env o)) = Some [e1; e1; e1].
Proof. reflexivity. Qed.

Lemma blink_passes :
  V3._liveness_detection micropython_ticks_diff V3.default_config 1000 blink = Some true.
Proof. reflexivity. Qed.

Lemma mean_of_three_e1 : avg_features [e1; e1; e1] = Ret e1.
Proof.
  rewrite (avg_features_mean 3) by (repeat constructor).
  unfold mean_component, py_sum, e1. simpl.
  repeat f_equal; field.
Qed.

(** The whole run, step by step. *)
Lemma ada_registered :
  V3._registration_mode micropython_ticks_diff V3.default_config (ada_env IoOk) empty_state
  = ({| users := [("1000", sample_user "Ada" e1)];
        disk := Some [("1000", sample_user "Ada" e1)] |},
     V3.Registered "1000").
Proof.
  unfold V3._registration_mode.
  rewrite ada_collects_three.
  change (V3.e_live_start (ada_env IoOk)) with 1000%Z.
  change (V3.e_live (ada_env IoOk)) with blink.
  rewrite blink_passes, mean_of_three_e1.
  reflexivity.
Qed.

(** C2.  Ada enrolls into an empty table with three accepted samples
    [[1,0,0]] and the write succeeds.  The run registers her under ["1000"]
    with the vector [[1,0,0]], and the record's [samples_count] is 1, not 3. *)
Theorem registration_three_samples_count_one :
  exists st' data,
    V3.collect V3.default_config [] (V3.e_capture (ada_env IoOk)) = Some [e1; e1; e1]
    /\ V3._registration_mode micropython_ticks_diff V3.default_config (ada_env IoOk)
         empty_state
       = (st', V3.Registered "1000")
    /\ get "1000" (users st') = Some data
    /\ get "features" data = Some (VFloats e1)
    /\ get "samples_count" data = Some (VInt 1)
    /\ get "samples_count" data <> Some (VInt 3).
Proof.
  exists {| users := [("1000", sample_user "Ada" e1)];
            disk := Some [("1000", sample_user "Ada" e1)] |},
         (sample_user "Ada" e1).
  split; [apply ada_collects_three|].
  split; [exact ada_registered|].
  repeat split. discriminate.
Qed.

Lemma registration_commits_mean_witness :
  (1 <= List.length [e1; e1; e1])%nat
  /\ exists data avg,
       get "1000" [("1000", sample_user "Ada" e1)] = Some data
       /\ get "features" data = Some (VFloats avg)
       /\ List.length avg = 3%nat
       /\ forall i, (i < 3)%nat ->
            nth i avg 0
            = py_sum (map (fun f => nth i f 0) [e1; e1; e1]) / INR (List.length [e1; e1; e1]).
Proof.
  apply (registration_commits_mean micropython_ticks_diff V3.default_config
           (ada_env IoOk) empty_state
           {| users := [("1000", sample_user "Ada" e1)];
              disk := Some [("1000", sample_user "Ada" e1)] |}
           "1000" [e1; e1; e1] 3).
  - apply ada_collects_three.
  - repeat constructor.
  - exact ada_registered.
Defined.

(** Bob's run: one shot, then a liveness check that times out. *)
Lemma registration_aborted_leaves_store_witness :
  let st := {| users := [("1000", sample_user "Ada" e1)]; disk := None |} in
  let env := {| V3.e_name := "Bob";
                V3.e_capture := [shot true true];
                V3.e_live_start := 1000%Z;
                V3.e_live := [glance 1100 [(30, 30, 10, 10)%Z]; glance 6000 []];
                V3.e_now := sample_clock;
                V3.e_io := IoOk |} in
  let result := V3._registration_mode micropython_ticks_diff V3.default_config env st in
  snd result = V3.LivenessFailed
  /\ users (fst result) = users st /\ disk (fst result) = disk st /\ fst result = st.
Proof.
  intros st env result. split; [reflexivity|].
  apply (registration_aborted_leaves_store micropython_ticks_diff V3.default_config
           env st (fst result) (snd result)).
  - reflexivity.
  - right. right. reflexivity.
Defined.

(** A cancelled name entry ends the run at once. *)
Lemma registration_cancelled (cfg : V3.Config) (env : V3.enrollment_env) (st : state) :
  V3.e_name env = "" ->
  V3._registration_mode micropython_ticks_diff cfg env st = (st, V3.Cancelled).
Proof. intros H. unfold V3._registration_mode. now rewrite H. Qed.

(** Re-enrollment records the number of samples just taken. *)
Lemma recollect_sets_samples_count (cfg : V3.Config) (user_id : string)
    (frames : list V3.capture_tick) (o : io) (st st' : state) (samples : list (list R)) :
  V3.collect cfg [] frames = Some samples ->
  V3._recollect_user_features cfg user_id frames o st = Ret (st', V3.Updated) ->
  exists data,
    get user_id (users st') = Some data
    /\ get "samples_count" data = Some (VInt (Z.of_nat (List.length samples))).
Proof.
  intros Hcol. unfold V3._recollect_user_features, V3.get_user.
  destruct (get user_id (users st)) as [[|fld flds]|]; try discriminate.
  cbv zeta. remember (fld :: flds) as user eqn:Euser.
  destruct (get "name" user); [|discriminate].
  rewrite Hcol. destruct samples as [|s ss]; [discriminate|].
  destruct (avg_features (s :: ss)) as [avg|e]; [|discriminate].
  unfold V3.save_db. destruct o; intros H; [|discriminate].
  injection H as <-. cbn [users].
  eexists. split; [apply get_set_same | apply get_set_same].
Qed.

End Scenario.

(** ** The liveness gate *)

Section Liveness.

Variable ticks_diff : Z -> Z -> Z.
Variable cfg : V3.Config.
Variable start_time : Z.

(** A run of the loop that answers [True] saw, inside the window, a frame
    without eyes, and before it (or before the run started, when
    [eyes_detected] was already set) a frame with eyes. *)
Lemma liveness_loop_true (frames : list V3.live_tick) :
  forall eyes_detected : bool,
    V3.liveness_loop ticks_diff cfg start_time eyes_detected false frames = Some true ->
    exists j tj,
      nth_error frames j = Some tj
      /\ eyes_absent tj = true
      /\ (forall k tk, (k <= j)%nat -> nth_error frames k = Some tk ->
            in_window ticks_diff cfg start_time tk = true)
      /\ (eyes_detected = true
          \/ exists i ti, (i < j)%nat /\ nth_error frames i = Some ti
                          /\ eyes_present ti = true).
Proof.
  induction frames as [|tk frames IH]; intros detected; simpl; [discriminate|].
  destruct (ticks_diff (V3.l_now tk) start_time <? V3.LIVENESS_TIMEOUT cfg) eqn:Ewin.
  2: { rewrite andb_false_r. discriminate. }
  assert (Hstep : forall (detected' answer : bool),
             (detected' = true -> detected = true \/ eyes_present tk = true) ->
             answer = false ->
             (if V3.l_back tk then Some answer
              else V3.liveness_loop ticks_diff cfg start_time detected' false frames)
             = Some true ->
             exists j tj,
               nth_error (tk :: frames) j = Some tj
               /\ eyes_absent tj = true
               /\ (forall k tk0, (k <= j)%nat -> nth_error (tk :: frames) k = Some tk0 ->
                     in_window ticks_diff cfg start_time tk0 = true)
               /\ (detected = true
                   \/ exists i ti, (i < j)%nat /\ nth_error (tk :: frames) i = Some ti
                                   /\ eyes_present ti = true)).
  { intros detected' answer Hd' ->. destruct (V3.l_back tk); [discriminate|].
    intros H. apply IH in H. destruct H as (j & tj & Hj & Habs & Hwin & Hpres).
    exists (S j), tj. split; [exact Hj|]. split; [exact Habs|]. split.
    - intros [|k] tk0 Hk Hnth.
      + injection Hnth as <-. exact Ewin.
      + apply (Hwin k); [lia|exact Hnth].
    - destruct Hpres as [Hd|(i & ti & Hi & Hnth & Hp)].
      + destruct (Hd' Hd) as [Hdet|Hp]; [now left|].
        right. exists 0%nat, tk. repeat split; [lia|exact Hp].
      + right. exists (S i), ti. repeat split; [lia|exact Hnth|exact Hp]. }
  destruct (V3.l_faces tk) as [|f fs] eqn:Efaces.
  { apply Hstep; [auto | apply andb_false_r]. }
  destruct (V3.l_eyes tk) as [|e es] eqn:Eeyes; destruct detected; simpl.
  - intros _. exists 0%nat, tk. split; [reflexivity|]. split.
    + unfold eyes_absent. now rewrite Efaces, Eeyes.
    + split; [|now left].
      intros [|k] tk0 Hk Hnth; [|lia]. injection Hnth as <-. exact Ewin.
  - apply Hstep; [auto | reflexivity].
  - apply Hstep; [auto | reflexivity].
  - apply Hstep; [|reflexivity]. intros _. right.
    unfold eyes_present. now rewrite Efaces, Eeyes.
Qed.

(** A run of the loop that meets a frame outside the window before any frame
    without eyes has followed a frame with eyes answers [False]. *)
Lemma liveness_loop_timeout (frames : list V3.live_tick) :
  forall (k : nat) (tk : V3.live_tick) (eyes_detected : bool),
    nth_error frames k = Some tk ->
    in_window ticks_diff cfg start_time tk = false ->
    (eyes_detected = true ->
     forall j tj, (j < k)%nat -> nth_error frames j = Some tj -> eyes_absent tj = false) ->
    (forall i j ti tj, (i < j < k)%nat ->
       nth_error frames i = Some ti -> nth_error frames j = Some tj ->
       eyes_present ti = true -> eyes_absent tj = false) ->
    V3.liveness_loop ticks_diff cfg start_time eyes_detected false frames = Some false.
Proof.
  induction frames as [|t0 frames IH]; intros k tk detected Hk Hout Hdet Hseq.
  { destruct k; discriminate. }
  simpl.
  destruct (ticks_diff (V3.l_now t0) start_time <? V3.LIVENESS_TIMEOUT cfg) eqn:Ewin.
  2: { now rewrite andb_false_r. }
  destruct k as [|k].
  { injection Hk as <-. unfold in_window in Hout. congruence. }
  simpl in Hk.
  assert (Hstep : forall (detected' answer : bool),
             (detected' = true -> detected = true \/ eyes_present t0 = true) ->
             answer = false ->
             (if V3.l_back t0 then Some answer
              else V3.liveness_loop ticks_diff cfg start_time detected' false frames)
             = Some false).
  { intros detected' answer Hd' ->. destruct (V3.l_back t0); [reflexivity|].
    apply (IH k tk); auto.
    - intros Hd j tj Hj Hnth. destruct (Hd' Hd) as [Hold|Hp].
      + apply (Hdet Hold (S j)); [lia|exact Hnth].
      + apply (Hseq 0%nat (S j) t0 tj); [lia|reflexivity|exact Hnth|exact Hp].
    - intros i j ti tj Hij Hi Hj. apply (Hseq (S i) (S j)); [lia|exact Hi|exact Hj]. }
  destruct (V3.l_faces t0) as [|f fs] eqn:Efaces.
  { apply Hstep; [auto | apply andb_false_r]. }
  destruct (V3.l_eyes t0) as [|e es] eqn:Eeyes; destruct detected; simpl.
  - exfalso.
    assert (Habs : eyes_absent t0 = false)
      by (apply (Hdet eq_refl 0%nat); [lia|reflexivity]).
    unfold eyes_absent in Habs. rewrite Efaces, Eeyes in Habs. discriminate.
  - apply Hstep; [auto | reflexivity].
  - apply Hstep; [auto | reflexivity].
  - apply Hstep; [|reflexivity]. intros _. right.
    unfold eyes_present. now rewrite Efaces, Eeyes.
Qed.

(** C9.  [_liveness_detection] answers [True] only if some frame showed eyes
    in a detected face, a later frame showed a detected face without eyes, and
    every loop test up to that later frame was inside the timeout window.  And
    whenever a frame's loop test falls outside the window before such a pair
    of frames has been seen, it answers [False]. *)
Theorem liveness_detection_passes_only_on_blink (frames : list V3.live_tick) :
  (V3._liveness_detection ticks_diff cfg start_time frames = Some true ->
   exists i j ti tj,
     (i < j)%nat
     /\ nth_error frames i = Some ti /\ eyes_present ti = true
     /\ nth_error frames j = Some tj /\ eyes_absent tj = true
     /\ forall k tk, (k <= j)%nat -> nth_error frames k = Some tk ->
          in_window ticks_diff cfg start_time tk = true)
  /\ (forall k tk,
        nth_error frames k = Some tk ->
        in_window ticks_diff cfg start_time tk = false ->
        (forall i j ti tj, (i < j < k)%nat ->
           nth_error frames i = Some ti -> nth_error frames j = Some tj ->
           eyes_present ti = true -> eyes_absent tj = false) ->
        V3._liveness_detection ticks_diff cfg start_time frames = Some false).
Proof.
  unfold V3._liveness_detection. split.
  - intros H. apply liveness_loop_true in H.
    destruct H as (j & tj & Hj & Habs & Hwin & [Hd|(i & ti & Hi & Hnth & Hp)]);
      [discriminate|].
    exists i, j, ti, tj. auto 10.
  - intros k tk Hk Hout Hseq.
    apply (liveness_loop_timeout frames k tk); auto. discriminate.
Qed.

End Liveness.

Lemma liveness_detection_passes_only_on_blink_witness :
  (exists i j ti tj,
     (i < j)%nat
     /\ nth_error blink i = Some ti /\ eyes_present ti = true
     /\ nth_error blink j = Some tj /\ eyes_absent tj = true
     /\ forall k tk, (k <= j)%nat -> nth_error blink k = Some tk ->
          in_window micropython_ticks_diff V3.default_config 1000 tk = true)
  /\ V3._liveness_detection micropython_ticks_diff V3.default_config 1000
       [glance 1100 [(30, 30, 10, 10)]; glance 6000 []]
     = Some false.
Proof.
  split.
  - apply (proj1 (liveness_detection_passes_only_on_blink
                    micropython_ticks_diff V3.default_config 1000 blink)).
    reflexivity.
  - apply (proj2 (liveness_detection_passes_only_on_blink
                    micropython_ticks_diff V3.default_config 1000
                    [glance 1100 [(30, 30, 10, 10)]; glance 6000 []])
             1%nat (glance 6000 [])).
    + reflexivity.
    + reflexivity.
    + intros i j ti tj Hij. lia.
Defined.

(** * Further properties of the code *)

(** ** More on dicts and ids *)

Section DictMore.
Context {V : Type}.

Lemma get_del_other (k k0 : string) (d : dict V) :
  k0 <> k -> get k0 (del k d) = get k0 d.
Proof.
  intros Hne. induction d as [|[k' v'] d IH]; simpl; [reflexivity|].
  destruct (String.eqb_spec k k') as [->|Hk]; simpl.
  - destruct (String.eqb_spec k0 k'); [contradiction|reflexivity].
  - now rewrite IH.
Qed.

Lemma del_set_fresh (k : string) (v : V) (d : dict V) :
  get k d = None -> del k (set k v d) = d.
Proof.
  induction d as [|[k' v'] d IH]; simpl.
  - intros _. now rewrite String.eqb_refl.
  - destruct (String.eqb_spec k k') as [->|Hk]; [discriminate|].
    intros H. simpl. destruct (String.eqb_spec k k'); [contradiction|].
    now rewrite IH.
Qed.

Lemma keys_del_incl (k : string) (d : dict V) : incl (keys (del k d)) (keys d).
Proof.
  induction d as [|[k' v'] d IH]; simpl; [apply incl_refl|].
  destruct (String.eqb k k'); simpl.
  - apply incl_tl, incl_refl.
  - intros x [<-|Hx]; [now left | right; now apply IH].
Qed.

Lemma wf_del (k : string) (d : dict V) : wf d -> wf (del k d).
Proof.
  unfold wf. induction d as [|[k' v'] d IH]; simpl; intros Hnd; [constructor|].
  inversion Hnd as [|? ? Hnotin Hnd']; subst.
  destruct (String.eqb k k'); simpl; [exact Hnd'|].
  constructor; [|now apply IH].
  intros Hin. apply Hnotin. now apply (keys_del_incl k d).
Qed.

Lemma mem_false_get (k : string) (d : dict V) : mem k d = false -> get k d = None.
Proof. unfold mem. now destruct (get k d). Qed.

Lemma mem_true_get (k : string) (d : dict V) : mem k d = true -> exists v, get k d = Some v.
Proof. unfold mem. destruct (get k d) as [v|]; [eauto|discriminate]. Qed.

End DictMore.

(** [str] gives different strings for different integers. *)
Lemma str_inj (n m : Z) : str n = str m -> n = m.
Proof.
  unfold str. intros H.
  assert (Hnil : forall z, Z.to_int z <> Decimal.Pos Decimal.Nil
                           /\ Z.to_int z <> Decimal.Neg Decimal.Nil).
  { intros z. split; intros E.
    - pose proof (DecimalZ.of_to z) as Hz. rewrite E in Hz. simpl in Hz. subst z.
      discriminate E.
    - pose proof (DecimalZ.of_to z) as Hz. rewrite E in Hz. simpl in Hz. subst z.
      discriminate E. }
  assert (Some (Z.to_int n) = Some (Z.to_int m)) as E.
  { rewrite <- (NilZero.isi (Z.to_int n)) by apply Hnil.
    rewrite <- (NilZero.isi (Z.to_int m)) by apply Hnil.
    now rewrite H. }
  injection E as E.
  rewrite <- (DecimalZ.of_to n), <- (DecimalZ.of_to m). now rewrite E.
Qed.

(** ** The store: deleting, adding, and what reaches the file *)

Section StoreMore.

(** X1.  [delete_user] on an id that is not in the table writes nothing and
    answers [False]; on an id that is in the table it takes out the record
    kept under that id and no other, whatever the write does. *)
Theorem delete_user_removes_only_that_user (user_id : string) (o : io) (st : state) :
  wf (users st) ->
  (mem user_id (users st) = false -> V3Store.delete_user user_id o st = (st, false))
  /\ (mem user_id (users st) = true ->
      let st' := fst (V3Store.delete_user user_id o st) in
      get user_id (users st') = None
      /\ wf (users st')
      /\ forall other, other <> user_id -> get other (users st') = get other (users st)).
Proof.
  intros Hwf. unfold V3Store.delete_user. split; intros Hmem; rewrite Hmem.
  - reflexivity.
  - destruct o; simpl; repeat split;
      auto using get_del_same, wf_del, get_del_other.
Qed.

Lemma delete_user_removes_only_that_user_witness :
  let st := {| users := [("1000", sample_user "Ada" e1); ("2000", sample_user "Bob" e2)];
               disk := None |} in
  (mem "1000" (users st) = false -> V3Store.delete_user "1000" IoOk st = (st, false))
  /\ (mem "1000" (users st) = true ->
      let st' := fst (V3Store.delete_user "1000" IoOk st) in
      get "1000" (users st') = None
      /\ wf (users st')
      /\ forall other, other <> "1000" -> get other (users st') = get other (users st)).
Proof.
  apply (delete_user_removes_only_that_user "1000" IoOk
           {| users := [("1000", sample_user "Ada" e1); ("2000", sample_user "Bob" e2)];
              disk := None |}).
  unfold wf. simpl. repeat constructor; simpl; intuition discriminate.
Defined.

(** X2.  Adding a user under an id the table does not hold and then deleting
    that id gives back the table as it was, records and order. *)
Theorem add_then_delete_restores_table
    (name : string) (features : list R) (now : clock) (o1 o2 : io) (st : state) :
  mem (str (ticks_ms now)) (users st) = false ->
  let added := V3.add_user name features now o1 st in
  users (fst (V3Store.delete_user (snd (snd added)) o2 (fst added))) = users st.
Proof.
  intros Hfresh. apply mem_false_get in Hfresh.
  unfold V3.add_user, V3Store.delete_user, V3.save_db.
  destruct o1; simpl; rewrite mem_set_same; destruct o2; simpl;
    now apply del_set_fresh.
Qed.

Lemma add_then_delete_restores_table_witness :
  let st := {| users := [("2000", sample_user "Bob" e2)]; disk := None |} in
  let added := V3.add_user "Ada" e1 sample_clock IoOk st in
  users (fst (V3Store.delete_user (snd (snd added)) IoOk (fst added))) = users st.
Proof.
  apply (add_then_delete_restores_table "Ada" e1 sample_clock IoOk IoOk
           {| users := [("2000", sample_user "Bob" e2)]; disk := None |}).
  reflexivity.
Defined.

(** X3.  When the new id is not in the table, [add_user] puts it last in the
    listing order, keeps the keys distinct and leaves every other record as
    it was. *)
Theorem add_user_fresh_appends
    (name : string) (features : list R) (now : clock) (o : io) (st : state) :
  wf (users st) ->
  mem (str (ticks_ms now)) (users st) = false ->
  let st' := fst (V3.add_user name features now o st) in
  keys (users st') = keys (users st) ++ [str (ticks_ms now)]
  /\ wf (users st')
  /\ forall other, other <> str (ticks_ms now) ->
       get other (users st') = get other (users st).
Proof.
  intros Hwf Hfresh. unfold V3.add_user, V3.save_db.
  destruct o; simpl; rewrite keys_set, Hfresh;
    repeat split; auto using wf_set, get_set_other.
Qed.

Lemma add_user_fresh_appends_witness :
  let st := {| users := [("2000", sample_user "Bob" e2)]; disk := None |} in
  let st' := fst (V3.add_user "Ada" e1 sample_clock IoOk st) in
  keys (users st') = keys (users st) ++ [str (ticks_ms sample_clock)]
  /\ wf (users st')
  /\ forall other, other <> str (ticks_ms sample_clock) ->
       get other (users st') = get other (users st).
Proof.
  apply (add_user_fresh_appends "Ada" e1 sample_clock IoOk
           {| users := [("2000", sample_user "Bob" e2)]; disk := None |}).
  - apply wf_singleton.
  - reflexivity.
Defined.

(** X4.  Two users added at different clock readings get different ids, and
    both records can be looked up afterwards. *)
Theorem add_user_twice_keeps_both
    (name1 name2 : string) (features1 features2 : list R) (now1 now2 : clock)
    (o1 o2 : io) (st : state) :
  ticks_ms now1 <> ticks_ms now2 ->
  let first := V3.add_user name1 features1 now1 o1 st in
  let second := V3.add_user name2 features2 now2 o2 (fst first) in
  snd (snd first) <> snd (snd second)
  /\ get (snd (snd first)) (users (fst second))
     = Some [ ("name", VStr name1); ("features", VFloats features1);
              ("registered_at", VStr (localtime now1)); ("samples_count", VInt 1) ]
  /\ get (snd (snd second)) (users (fst second))
     = Some [ ("name", VStr name2); ("features", VFloats features2);
              ("registered_at", VStr (localtime now2)); ("samples_count", VInt 1) ].
Proof.
  intros Hne.
  assert (Hid : str (ticks_ms now1) <> str (ticks_ms now2))
    by (intros E; apply Hne; now apply str_inj).
  unfold V3.add_user, V3.save_db.
  destruct o1, o2; simpl; repeat split; try exact Hid;
    try apply get_set_same;
    (rewrite get_set_other by exact Hid; apply get_set_same).
Qed.

Lemma add_user_twice_keeps_both_witness :
  let now2 := {| ticks_ms := 2000; localtime := "(2024, 1, 1, 0, 0, 1, 0, 1)" |} in
  let first := V3.add_user "Ada" e1 sample_clock IoOk empty_state in
  let second := V3.add_user "Bob" e2 now2 IoOk (fst first) in
  snd (snd first) <> snd (snd second)
  /\ get (snd (snd first)) (users (fst second))
     = Some [ ("name", VStr "Ada"); ("features", VFloats e1);
              ("registered_at", VStr (localtime sample_clock)); ("samples_count", VInt 1) ]
  /\ get (snd (snd second)) (users (fst second))
     = Some [ ("name", VStr "Bob"); ("features", VFloats e2);
              ("registered_at", VStr (localtime now2)); ("samples_count", VInt 1) ].
Proof.
  apply (add_user_twice_keeps_both "Ada" "Bob" e1 e2 sample_clock
           {| ticks_ms := 2000; localtime := "(2024, 1, 1, 0, 0, 1, 0, 1)" |}
           IoOk IoOk empty_state).
  discriminate.
Defined.

End StoreMore.

Section StoreAcrossCalls.

(** X5.  A record whose [add_user] answered [False] is still written to the
    file by the next write that succeeds: here the deletion of another
    user. *)
Theorem failed_add_is_saved_by_next_write
    (name : string) (features : list R) (now : clock) (leftover : file)
    (other : string) (st : state) :
  other <> str (ticks_ms now) ->
  mem other (users st) = true ->
  let failed := V3.add_user name features now (IoError leftover) st in
  let st2 := fst (V3Store.delete_user other IoOk (fst failed)) in
  fst (snd failed) = false
  /\ get (str (ticks_ms now)) (V3._load_db (disk st2))
     = Some [ ("name", VStr name); ("features", VFloats features);
              ("registered_at", VStr (localtime now)); ("samples_count", VInt 1) ].
Proof.
  intros Hne Hmem. cbv zeta. split; [reflexivity|].
  unfold V3.add_user, V3Store.delete_user, V3.save_db. cbn [fst snd users disk].
  match goal with
  | |- context [if ?c then _ else _] => assert (Hmem' : c = true)
  end.
  { unfold mem in *. now rewrite get_set_other. }
  rewrite Hmem'. cbn [fst snd users disk V3._load_db].
  rewrite get_del_other by congruence. apply get_set_same.
Qed.

Lemma failed_add_is_saved_by_next_write_witness :
  let st := {| users := [("2000", sample_user "Bob" e2)]; disk := None |} in
  let failed := V3.add_user "Ada" e1 sample_clock (IoError None) st in
  let st2 := fst (V3Store.delete_user "2000" IoOk (fst failed)) in
  fst (snd failed) = false
  /\ get (str (ticks_ms sample_clock)) (V3._load_db (disk st2))
     = Some [ ("name", VStr "Ada"); ("features", VFloats e1);
              ("registered_at", VStr (localtime sample_clock)); ("samples_count", VInt 1) ].
Proof.
  apply (failed_add_is_saved_by_next_write "Ada" e1 sample_clock None "2000"
           {| users := [("2000", sample_user "Bob" e2)]; disk := None |}).
  - discriminate.
  - reflexivity.
Defined.

(** X6.  Draft 1: when the new id is already a key and the write fails, the
    clean-up deletes that key, so the record that was there before the call is
    gone from the table; the other records stay. *)
Theorem registration_commit_collision_loses_record
    (name : string) (samples : list (list R)) (now : clock) (leftover : file)
    (st st' : state) (ok : bool) :
  wf (users st) ->
  mem (str (ticks_ms now)) (users st) = true ->
  V1.registration_commit name samples now (IoError leftover) st = Ret (st', ok) ->
  get (str (ticks_ms now)) (users st') = None
  /\ forall other, other <> str (ticks_ms now) ->
       get other (users st') = get other (users st).
Proof.
  intros Hwf Hmem H. unfold V1.registration_commit in H.
  destruct (avg_features samples) as [avg|e]; simpl in H; [|discriminate].
  rewrite mem_set_same in H. injection H as <- _. simpl. split.
  - apply get_del_same. now apply wf_set.
  - intros other Hne. rewrite get_del_other by exact Hne.
    now apply get_set_other.
Qed.

End StoreAcrossCalls.

(** ** More on the matcher *)

Section MatcherMore.
Local Open Scope R_scope.

(** The loop returns the id it started with only if no record beat the
    starting bound, and otherwise the id of a record that no record beats.
    Only the laws of a strict order are used: [>] is irreflexive, asymmetric
    and transitive. *)
Lemma scan_users_complete (key : string) (probe : list R)
    (items : list (string * user_data)) :
  forall (highest : R) (best r : option string),
    scan_users key probe items highest best = Ret r ->
    (r = best
     /\ Forall (fun item => exists s, similarity_of key probe (snd item) s /\ ~ s > highest)
          items)
    \/ exists user_id data m,
         r = Some user_id /\ In (user_id, data) items
         /\ similarity_of key probe data m /\ m > highest
         /\ Forall (fun item => exists s, similarity_of key probe (snd item) s /\ ~ s > m)
              items.
Proof.
  induction items as [|[user_id data] items IH]; intros highest best r; simpl.
  - intros H. injection H as <-. left. split; [reflexivity|constructor].
  - destruct (get key data) as [v|] eqn:Eget; [|discriminate].
    destruct (as_vector v) as [known|e] eqn:Evec; [|discriminate]. simpl.
    destruct (cosine_similarity probe known) as [s|e] eqn:Ecos; [|discriminate].
    assert (Hsim : similarity_of key probe data s) by (exists v, known; auto).
    destruct (Rgt_dec s highest) as [Hgt|Hle]; intros H; apply IH in H.
    + right. destruct H as [[-> Hall]|(u & d & m & -> & Hin & Hd & Hm & Hall)].
      * exists user_id, data, s. repeat split; auto.
        constructor; [|exact Hall].
        exists s. split; [exact Hsim | apply Rgt_irrefl].
      * exists u, d, m. repeat split; auto.
        { now apply Rgt_trans with s. }
        constructor; [|exact Hall].
        exists s. split; [exact Hsim | now apply Rgt_asym].
    + destruct H as [[-> Hall]|(u & d & m & -> & Hin & Hd & Hm & Hall)].
      * left. split; [reflexivity|].
        constructor; [exists s; split; [exact Hsim|exact Hle] | exact Hall].
      * right. exists u, d, m. repeat split; auto.
        constructor; [|exact Hall].
        exists s. split; [exact Hsim|].
        intros Hsm. apply Hle. now apply Rgt_trans with m.
Qed.

(** X9.  For a non-empty probe, when [find_user_by_features] returns without
    raising: if it found nobody, no record's similarity is greater than the
    threshold; if it found somebody, that record's similarity is greater than
    the threshold and no record's similarity is greater than it. *)
Theorem find_user_by_features_best
    (x : R) (xs : list R) (threshold : R) (table : user_table) (r : option string) :
  V3.find_user_by_features (Some (x :: xs)) threshold table = Ret r ->
  match r with
  | None =>
      Forall (fun item => exists s,
                similarity_of "features" (x :: xs) (snd item) s /\ ~ s > threshold) table
  | Some user_id =>
      exists data m,
        In (user_id, data) table
        /\ similarity_of "features" (x :: xs) data m /\ m > threshold
        /\ Forall (fun item => exists s,
                     similarity_of "features" (x :: xs) (snd item) s /\ ~ s > m) table
  end.
Proof.
  unfold V3.find_user_by_features. intros H. apply scan_users_complete in H.
  destruct H as [[-> Hall]|(u & d & m & -> & Hin & Hd & Hm & Hall)].
  - exact Hall.
  - exists d, m. auto.
Qed.

Lemma find_user_by_features_best_witness :
  Forall (fun item => exists s,
            similarity_of "features" e2 (snd item) s /\ ~ s > 5 / 10)
    [("1000", sample_user "Ada" e1)].
Proof.
  apply (find_user_by_features_best 0 [1; 0] (5 / 10)
           [("1000", sample_user "Ada" e1)] None).
  exact find_user_orthogonal_vector.
Defined.

(** X7.  A table in which every record has the layout of drafts 1 and 2 makes
    draft 3's matcher raise [KeyError] on any non-empty probe: those records
    have no ["features"] field. *)
Theorem find_user_by_features_on_draft2_table
    (x : R) (xs : list R) (threshold : R) (table : user_table) :
  table <> [] ->
  Forall (fun item => v2_layout (snd item)) table ->
  V3.find_user_by_features (Some (x :: xs)) threshold table = Raise KeyError.
Proof.
  intros Hne Hall. unfold V3.find_user_by_features.
  destruct table as [|[user_id data] table]; [contradiction|].
  inversion Hall as [|? ? Hlayout _]; subst.
  destruct Hlayout as (n & d & t & c & E). simpl in E. subst data.
  reflexivity.
Qed.

Lemma find_user_by_features_on_draft2_table_witness :
  V3.find_user_by_features (Some e1) (5 / 10)
    (users (fst (V2.add "Ada" e1 sample_clock IoOk empty_state)))
  = Raise KeyError.
Proof.
  apply (find_user_by_features_on_draft2_table 1 [0; 0] (5 / 10)
           (users (fst (V2.add "Ada" e1 sample_clock IoOk empty_state)))).
  - discriminate.
  - repeat constructor. simpl. unfold v2_layout. eauto.
Defined.

End MatcherMore.

(** ** More on averaging *)

Section AveragingMore.
Local Open Scope R_scope.

Lemma map_nth_seq (l : list R) : map (fun i => nth i l 0) (seq 0 (List.length l)) = l.
Proof.
  induction l as [|x l IH]; simpl; [reflexivity|].
  f_equal. rewrite <- seq_shift, map_map. exact IH.
Qed.

(** X11.  The average of a single sample is that sample: an enrollment with
    one shot stores the vector the extractor gave. *)
Theorem avg_features_single (s : list R) : avg_features [s] = Ret s.
Proof.
  rewrite (avg_features_mean (List.length s)) by (repeat constructor).
  f_equal.
  transitivity (map (fun i => nth i s 0) (seq 0 (List.length s)));
    [|apply map_nth_seq].
  apply map_ext. intros i. unfold mean_component, py_sum. simpl. field.
Qed.

Lemma mapM_raises {A B : Type} (f : A -> result B) (e : exn) (l : list A) :
  (forall a, In a l -> (exists b, f a = Ret b) \/ f a = Raise e) ->
  (exists a, In a l /\ f a = Raise e) ->
  mapM f l = Raise e.
Proof.
  induction l as [|a l IH]; intros Hall (a0 & Hin & Ha0); [contradiction|].
  simpl. destruct (Hall a (or_introl eq_refl)) as [(b & Hb)|Hr].
  - rewrite Hb. simpl.
    destruct Hin as [<-|Hin]; [congruence|].
    rewrite IH; [reflexivity | intros; apply Hall; now right | eauto].
  - now rewrite Hr.
Qed.

Lemma column_ret_or_index (i : nat) (samples : list (list R)) :
  (exists col, column i samples = Ret col) \/ column i samples = Raise IndexError.
Proof.
  induction samples as [|f samples IH]; simpl; [eauto|].
  destruct (nth_error f i); [|now right].
  destruct IH as [(col & ->) | ->]; simpl; eauto.
Qed.

Lemma column_short (i : nat) (samples : list (list R)) (f : list R) :
  In f samples -> (List.length f <= i)%nat -> column i samples = Raise IndexError.
Proof.
  induction samples as [|g samples IH]; intros Hin Hlen; [contradiction|].
  simpl. destruct Hin as [->|Hin].
  - apply nth_error_None in Hlen. now rewrite Hlen.
  - destruct (nth_error g i); [|reflexivity].
    now rewrite IH.
Qed.

(** X12.  When some sample has fewer components than the first one, the
    averaging raises [IndexError]. *)
Theorem avg_features_short_sample (first : list R) (rest : list (list R)) (f : list R) :
  In f rest ->
  (List.length f < List.length first)%nat ->
  avg_features (first :: rest) = Raise IndexError.
Proof.
  intros Hin Hlen. unfold avg_features.
  apply mapM_raises.
  - intros i _. destruct (column_ret_or_index i (first :: rest)) as [(col & ->) | ->].
    + left. unfold bind. cbv beta iota. rewrite py_div_nonzero; [eauto|].
      apply not_0_INR. discriminate.
    + now right.
  - exists (List.length f). split; [apply in_seq; lia|].
    rewrite (column_short (List.length f) (first :: rest) f); auto.
    now right.
Qed.

Lemma avg_features_short_sample_witness :
  avg_features ([1; 0; 0] :: [[1; 0]]) = Raise IndexError.
Proof.
  apply (avg_features_short_sample [1; 0; 0] [[1; 0]] [1; 0]).
  - now left.
  - simpl. lia.
Defined.

End AveragingMore.

Lemma registration_commit_collision_loses_record_witness :
  get (str (ticks_ms sample_clock))
    (users {| users := []; disk := None |}) = None
  /\ forall other, other <> str (ticks_ms sample_clock) ->
       get other (users {| users := []; disk := None |})
       = get other (users {| users := [("1000", sample_user "Ada" e2)]; disk := None |}).
Proof.
  apply (registration_commit_collision_loses_record "Bob" [e1; e1; e1] sample_clock None
           {| users := [("1000", sample_user "Ada" e2)]; disk := None |}
           {| users := []; disk := None |} false).
  - apply wf_singleton.
  - reflexivity.
  - unfold V1.registration_commit. rewrite mean_of_three_e1. reflexivity.
Defined.

(** ** The sample loop *)

Section SampleLoop.

Variable cfg : V3.Config.

Lemma collect_accepts_only (all : list V3.capture_tick) (frames : list V3.capture_tick) :
  incl frames all ->
  forall samples collected,
    (List.length samples <= V3.REGISTRATION_SAMPLES cfg)%nat ->
    Forall (accepted_from cfg all) samples ->
    V3.collect cfg samples frames = Some collected ->
    (List.length collected <= V3.REGISTRATION_SAMPLES cfg)%nat
    /\ Forall (accepted_from cfg all) collected.
Proof.
  induction frames as [|tk frames IH]; intros Hincl samples collected Hlen Hacc; simpl.
  - destruct (Nat.ltb (List.length samples) (V3.REGISTRATION_SAMPLES cfg));
      [discriminate|].
    intros H. injection H as <-. auto.
  - destruct (Nat.ltb_spec (List.length samples) (V3.REGISTRATION_SAMPLES cfg)) as [Hlt|Hge].
    2: { intros H. injection H as <-. auto. }
    assert (Hincl' : incl frames all) by (intros x Hx; apply Hincl; now right).
    assert (Hback : forall samples1,
               (List.length samples1 <= V3.REGISTRATION_SAMPLES cfg)%nat ->
               Forall (accepted_from cfg all) samples1 ->
               (if V3.c_back tk && nonempty samples1 then Some samples1
                else V3.collect cfg samples1 frames) = Some collected ->
               (List.length collected <= V3.REGISTRATION_SAMPLES cfg)%nat
               /\ Forall (accepted_from cfg all) collected).
    { intros samples1 Hlen1 Hacc1.
      destruct (V3.c_back tk && nonempty samples1).
      - intros H. injection H as <-. auto.
      - now apply IH. }
    destruct (V3.c_faces tk) as [|f0 fs] eqn:Efaces; [now apply Hback|].
    destruct (V3.c_up tk) eqn:Eup; [|now apply Hback].
    destruct (Z.ltb_spec (V3.width (V3.max_by V3.area f0 fs)) (V3.MIN_FACE_SIZE cfg))
      as [Hw|Hw]; simpl.
    { now apply IH. }
    destruct (Z.ltb_spec (V3.height (V3.max_by V3.area f0 fs)) (V3.MIN_FACE_SIZE cfg))
      as [Hh|Hh]; simpl.
    { now apply IH. }
    destruct (V3.c_features tk) as [[|x xs]|] eqn:Efeat; try now apply Hback.
    apply Hback.
    + rewrite length_app. simpl. lia.
    + apply Forall_app. split; [exact Hacc|].
      constructor; [|constructor].
      split; [discriminate|].
      exists tk, f0, fs. repeat split; auto. apply Hincl. now left.
Qed.

(** X13.  The sample loop hands back at most [REGISTRATION_SAMPLES] samples,
    and each of them is a non-empty vector taken on a frame where "up" was
    pressed and the largest face was at least [MIN_FACE_SIZE] wide and high:
    a face that is too small never contributes a sample. *)
Theorem collect_quality_gate (frames : list V3.capture_tick) (collected : list (list R)) :
  V3.collect cfg [] frames = Some collected ->
  (List.length collected <= V3.REGISTRATION_SAMPLES cfg)%nat
  /\ Forall (accepted_from cfg frames) collected.
Proof.
  apply (collect_accepts_only frames frames).
  - apply incl_refl.
  - simpl. lia.
  - constructor.
Qed.

End SampleLoop.

Lemma collect_quality_gate_witness :
  (List.length [e1; e1; e1] <= V3.REGISTRATION_SAMPLES V3.default_config)%nat
  /\ Forall (accepted_from V3.default_config (V3.e_capture (ada_env IoOk))) [e1; e1; e1].
Proof.
  apply (collect_quality_gate V3.default_config (V3.e_capture (ada_env IoOk)) [e1; e1; e1]).
  apply ada_collects_three.
Defined.

Section LargestFace.

Variable key : V3.rect -> Z.

(** X14.  [max(faces, key=...)] as the code uses it picks a face of the list
    whose key no other face exceeds, and among faces with that key the one
    found first: every face before it has a strictly smaller key. *)
Theorem max_by_first_largest (fs : list V3.rect) :
  forall f0 : V3.rect,
    exists pre post,
      f0 :: fs = pre ++ V3.max_by key f0 fs :: post
      /\ Forall (fun f => key f < key (V3.max_by key f0 fs)) pre
      /\ Forall (fun f => key f <= key (V3.max_by key f0 fs)) post.
Proof.
  induction fs as [|f fs IH]; intros best; simpl.
  - exists [], []. repeat split; constructor.
  - destruct (Z.gtb_spec (key f) (key best)) as [Hgt|Hle].
    + destruct (IH f) as (pre & post & Hsplit & Hpre & Hpost).
      exists (best :: pre), post. split; [simpl; now rewrite Hsplit|].
      split; [|exact Hpost].
      constructor; [|exact Hpre].
      destruct pre as [|p pre].
      * simpl in Hsplit. injection Hsplit as Hf _. rewrite <- Hf. lia.
      * simpl in Hsplit. injection Hsplit as Hf _. subst p.
        inversion Hpre; subst. lia.
    + destruct (IH best) as (pre & post & Hsplit & Hpre & Hpost).
      destruct pre as [|p pre].
      * simpl in Hsplit. injection Hsplit as Hm Hfs.
        exists [], (f :: post). rewrite <- Hm in *.
        split; [simpl; now rewrite <- Hfs|].
        split; constructor; [lia|exact Hpost].
      * simpl in Hsplit. injection Hsplit as Hp Hfs. subst p.
        exists (best :: f :: pre), post.
        split; [simpl; do 2 f_equal; exact Hfs|].
        split; [|exact Hpost].
        inversion Hpre; subst. constructor; [assumption|].
        constructor; [lia|assumption].
Qed.

End LargestFace.

(** ** Menus *)

Section Menus.
Import V3Settings V3Panel.

Variable options : list string.
Variable action_map : list Z.

Hypothesis options_nonempty : options <> [].

Lemma options_length_pos : 0 < Z.of_nat (List.length options).
Proof. destruct options; [contradiction | simpl; lia]. Qed.

Lemma py_mod_in_range (a : Z) :
  py_mod a (Z.of_nat (List.length options)) = Ret (a mod Z.of_nat (List.length options))
  /\ 0 <= a mod Z.of_nat (List.length options) < Z.of_nat (List.length options).
Proof.
  pose proof options_length_pos as Hpos. unfold py_mod.
  destruct (Z.eqb_spec (Z.of_nat (List.length options)) 0); [lia|].
  split; [reflexivity | apply Z.mod_pos_bound; lia].
Qed.

(** X15.  A menu with at least one option never raises, and whatever it
    returns, the cursor it leaves and the index it reports lie inside the
    list of options. *)
Theorem show_cursor_in_range (polls : list pad) :
  forall (selected : Z) (r : result (Z * menu_result)),
    0 <= selected < Z.of_nat (List.length options) ->
    show options action_map selected polls = Some r ->
    exists selected' answer,
      r = Ret (selected', answer)
      /\ 0 <= selected' < Z.of_nat (List.length options)
      /\ (answer = ActionAt selected' \/ answer = Index selected' \/ answer = MinusOne).
Proof.
  induction polls as [|p polls IH]; intros selected r Hsel; simpl; [discriminate|].
  destruct (p_up p).
  { destruct (py_mod_in_range (selected - 1)) as [-> Hr]. now apply IH. }
  destruct (p_down p).
  { destruct (py_mod_in_range (selected + 1)) as [-> Hr]. now apply IH. }
  destruct (p_select p).
  { destruct (existsb (Z.eqb selected) action_map); intros H; injection H as <-;
      exists selected; eexists; eauto. }
  destruct (p_back p).
  { intros H. injection H as <-. exists selected; eexists; eauto. }
  now apply IH.
Qed.

(** X16.  The cursor wraps: "up" on the first option goes to the last one,
    "down" on the last option goes to the first. *)
Theorem show_wraps (p : pad) (polls : list pad) :
  (p_up p = true ->
   show options action_map 0 (p :: polls)
   = show options action_map (Z.of_nat (List.length options) - 1) polls)
  /\ (p_up p = false -> p_down p = true ->
      show options action_map (Z.of_nat (List.length options) - 1) (p :: polls)
      = show options action_map 0 polls).
Proof.
  pose proof options_length_pos as Hpos. split.
  - intros Hup. cbn [show]. rewrite Hup.
    destruct (py_mod_in_range (0 - 1)) as [-> _].
    replace (0 - 1) with (-1 * Z.of_nat (List.length options)
                          + (Z.of_nat (List.length options) - 1)) by lia.
    rewrite Z.add_comm, Z.mod_add by lia.
    rewrite Z.mod_small by lia. reflexivity.
  - intros Hup Hdown. cbn [show]. rewrite Hup, Hdown.
    destruct (py_mod_in_range (Z.of_nat (List.length options) - 1 + 1)) as [-> _].
    replace (Z.of_nat (List.length options) - 1 + 1)
      with (Z.of_nat (List.length options)) by lia.
    rewrite Z.mod_same by lia. reflexivity.
Qed.

(** A run of "down" presses moves the cursor forward modulo the number of
    options. *)
Lemma show_downs (presses polls : list pad) :
  Forall (fun p => p_up p = false /\ p_down p = true) presses ->
  forall selected,
    0 <= selected < Z.of_nat (List.length options) ->
    show options action_map selected (presses ++ polls)
    = show options action_map
        ((selected + Z.of_nat (List.length presses)) mod Z.of_nat (List.length options))
        polls.
Proof.
  pose proof options_length_pos as Hpos.
  induction 1 as [|p presses [Hup Hdown] _ IH]; intros selected Hsel.
  - simpl. rewrite Z.add_0_r, Z.mod_small by lia. reflexivity.
  - cbn [app show]. rewrite Hup, Hdown.
    destruct (py_mod_in_range (selected + 1)) as [-> Hr].
    rewrite IH by exact Hr.
    rewrite Zplus_mod_idemp_l. f_equal.
    replace (Z.of_nat (List.length (p :: presses)))
      with (1 + Z.of_nat (List.length presses)) by (simpl List.length; lia).
    f_equal. lia.
Qed.

(** X17.  Pressing "down" as many times as there are options brings the
    cursor back to where it was. *)
Theorem show_full_cycle (presses polls : list pad) (selected : Z) :
  Forall (fun p => p_up p = false /\ p_down p = true) presses ->
  List.length presses = List.length options ->
  0 <= selected < Z.of_nat (List.length options) ->
  show options action_map selected (presses ++ polls)
  = show options action_map selected polls.
Proof.
  intros Hdowns Hlen Hsel. pose proof options_length_pos as Hpos.
  rewrite show_downs by assumption.
  rewrite Hlen.
  replace (selected + Z.of_nat (List.length options))
    with (selected + 1 * Z.of_nat (List.length options)) by lia.
  rewrite Z.mod_add by lia. rewrite Z.mod_small by lia. reflexivity.
Qed.

End Menus.

Section MenuWitnesses.
Import V3Settings V3Panel.

Lemma show_cursor_in_range_witness :
  exists selected' answer,
    Ret (0, Index 0) = Ret (selected', answer)
    /\ 0 <= selected' < Z.of_nat (List.length ["a"; "b"])
    /\ (answer = ActionAt selected' \/ answer = Index selected' \/ answer = MinusOne).
Proof.
  apply (show_cursor_in_range ["a"; "b"] [] ltac:(discriminate)
           [ {| p_up := false; p_down := true; p_select := false; p_back := false;
                p_up_long := false; p_down_long := false |};
             {| p_up := true; p_down := false; p_select := false; p_back := false;
                p_up_long := false; p_down_long := false |};
             {| p_up := false; p_down := false; p_select := true; p_back := false;
                p_up_long := false; p_down_long := false |} ]
           0 (Ret (0, Index 0))).
  - simpl. lia.
  - reflexivity.
Defined.

Lemma show_wraps_witness :
  let up := {| p_up := true; p_down := false; p_select := false; p_back := false;
               p_up_long := false; p_down_long := false |} in
  (p_up up = true ->
   show ["a"; "b"; "c"] [] 0 [up] = show ["a"; "b"; "c"] [] (Z.of_nat 3 - 1) [])
  /\ (p_up up = false -> p_down up = true ->
      show ["a"; "b"; "c"] [] (Z.of_nat 3 - 1) [up] = show ["a"; "b"; "c"] [] 0 []).
Proof.
  intros up.
  exact (show_wraps ["a"; "b"; "c"] [] ltac:(discriminate) up []).
Defined.

Lemma show_full_cycle_witness :
  let down := {| p_up := false; p_down := true; p_select := false; p_back := false;
                 p_up_long := false; p_down_long := false |} in
  show ["a"; "b"] [] 1 ([down; down] ++ []) = show ["a"; "b"] [] 1 [].
Proof.
  intros down.
  apply (show_full_cycle ["a"; "b"] [] ltac:(discriminate) [down; down] [] 1).
  - repeat constructor.
  - reflexivity.
  - simpl. lia.
Defined.

End MenuWitnesses.

(** ** Buttons *)

Section Buttons.
Import V3Panel.

Variable ticks_diff : Z -> Z -> Z.

Lemma is_pressed_fires_released (p : pin_poll) (b b' : Button) :
  is_pressed p b = (b', true) -> last_state b = 1 /\ last_state b' = 0.
Proof.
  unfold is_pressed.
  destruct (pin_first p =? 0); simpl.
  - destruct (Z.eqb_spec (last_state b) 1) as [E|_].
    + destruct (pin_after p =? 0); [|discriminate].
      intros H. injection H as <-. auto.
    + destruct ((pin_first p =? 1) && (last_state b =? 0)); discriminate.
  - destruct ((pin_first p =? 1) && (last_state b =? 0)); discriminate.
Qed.

(** On a button that is down and already counted as pressed, [is_pressed]
    answers [True] only after [is_long_pressed] has answered [True]. *)
Lemma is_pressed_needs_long_press (calls : list call) :
  forall (b : Button) (i : nat) (p : pin_poll),
    last_state b = 0 ->
    Forall (fun c => pin_first (reads c) = 0) calls ->
    nth_error calls i = Some (Short p) ->
    nth_error (poll_calls ticks_diff calls b) i = Some true ->
    exists j q,
      (j < i)%nat /\ nth_error calls j = Some (Long q)
      /\ nth_error (poll_calls ticks_diff calls b) j = Some true.
Proof.
  induction calls as [|c calls IH]; intros b i p Hb Hlow Hcall Hans.
  { destruct i; discriminate. }
  inversion Hlow as [|? ? Hc Hlow']; subst.
  destruct c as [q|q]; simpl in Hc; cbn [poll_calls] in *.
  - assert (E : is_pressed q b = (b, false))
      by (unfold is_pressed; rewrite Hb, Hc; reflexivity).
    rewrite E in *. destruct i as [|i]; [discriminate|]. simpl in Hcall, Hans.
    destruct (IH b i p Hb Hlow' Hcall Hans) as (j & q' & Hj & Hq & Ha).
    exists (S j), q'. repeat split; [lia|exact Hq|exact Ha].
  - destruct (is_long_pressed ticks_diff q b) as [b' answer] eqn:E.
    destruct i as [|i]; [discriminate|]. simpl in Hcall, Hans.
    destruct answer.
    + exists 0%nat, q. repeat split. lia.
    + assert (Hb' : b' = b).
      { unfold is_long_pressed in E. rewrite Hb, Hc in E. simpl in E.
        destruct (ticks_diff (pin_now q) (pressed_time b) >? long_press_threshold b);
          [discriminate|]. now injection E as <-. }
      subst b'.
      destruct (IH b i p Hb Hlow' Hcall Hans) as (j & q' & Hj & Hq & Ha).
      exists (S j), q'. repeat split; [lia|exact Hq|exact Ha].
Qed.

(** X18.  While the pin keeps reading low, two calls of [is_pressed] that
    answer [True] always have between them a call of [is_long_pressed] that
    answered [True]: a button kept down gives a second short-press event only
    after the long-press detector has fired on it. *)
Theorem is_pressed_again_only_after_long_press (calls : list call) :
  forall (b : Button) (k i : nat) (p1 p2 : pin_poll),
    Forall (fun c => pin_first (reads c) = 0) calls ->
    (k < i)%nat ->
    nth_error calls k = Some (Short p1) ->
    nth_error (poll_calls ticks_diff calls b) k = Some true ->
    nth_error calls i = Some (Short p2) ->
    nth_error (poll_calls ticks_diff calls b) i = Some true ->
    exists j q,
      (k < j < i)%nat /\ nth_error calls j = Some (Long q)
      /\ nth_error (poll_calls ticks_diff calls b) j = Some true.
Proof.
  induction calls as [|c calls IH]; intros b k i p1 p2 Hlow Hki Hk Hak Hi Hai.
  { destruct k; discriminate. }
  inversion Hlow as [|? ? Hc Hlow']; subst.
  destruct i as [|i]; [lia|].
  cbn [poll_calls] in *.
  destruct (match c with
            | Short p => is_pressed p b
            | Long p => is_long_pressed ticks_diff p b
            end) as [b' answer] eqn:E.
  simpl in Hi, Hai.
  destruct k as [|k].
  - simpl in Hk, Hak. injection Hk as ->. injection Hak as ->.
    apply is_pressed_fires_released in E. destruct E as [_ Hb'].
    destruct (is_pressed_needs_long_press calls b' i p2 Hb' Hlow' Hi Hai)
      as (j & q & Hj & Hq & Ha).
    exists (S j), q. repeat split; [lia|lia|exact Hq|exact Ha].
  - simpl in Hk, Hak.
    destruct (IH b' k i p1 p2 Hlow' ltac:(lia) Hk Hak Hi Hai) as (j & q & Hj & Hq & Ha).
    exists (S j), q. repeat split; [lia|lia|exact Hq|exact Ha].
Qed.

(** X19.  A button kept down fires the long press again and again: after
    [is_long_pressed] has answered [True], the next call with the pin still
    low starts a new press, and a later call answers [True] once the
    threshold has passed since then. *)
Theorem is_long_pressed_fires_again (p1 p2 p3 : pin_poll) (b : Button) :
  last_state b = 0 ->
  pin_first p1 = 0 ->
  pin_first p2 = 0 -> pin_after p2 = 0 ->
  pin_first p3 = 0 ->
  long_press_threshold b < ticks_diff (pin_now p1) (pressed_time b) ->
  long_press_threshold b < ticks_diff (pin_now p3) (pin_now p2) ->
  let (b1, r1) := is_long_pressed ticks_diff p1 b in
  let (b2, r2) := is_long_pressed ticks_diff p2 b1 in
  let (b3, r3) := is_long_pressed ticks_diff p3 b2 in
  r1 = true /\ r2 = false /\ r3 = true.
Proof.
  intros Hb H1 H2 H2' H3 Hlong1 Hlong3.
  unfold is_long_pressed. rewrite Hb, H1. simpl.
  apply Z.gtb_lt in Hlong1. rewrite Hlong1. simpl.
  rewrite H2, H2'. simpl. rewrite H3. simpl.
  apply Z.gtb_lt in Hlong3. rewrite Hlong3. auto.
Qed.

End Buttons.

Lemma is_long_pressed_fires_again_witness :
  let b := {| V3Panel.last_state := 0; V3Panel.pressed_time := 0;
              V3Panel.long_press_threshold := 1000 |} in
  let p1 := {| V3Panel.pin_first := 0; V3Panel.pin_after := 0; V3Panel.pin_now := 1100 |} in
  let p2 := {| V3Panel.pin_first := 0; V3Panel.pin_after := 0; V3Panel.pin_now := 1200 |} in
  let p3 := {| V3Panel.pin_first := 0; V3Panel.pin_after := 0; V3Panel.pin_now := 2300 |} in
  let (b1, r1) := V3Panel.is_long_pressed micropython_ticks_diff p1 b in
  let (b2, r2) := V3Panel.is_long_pressed micropython_ticks_diff p2 b1 in
  let (b3, r3) := V3Panel.is_long_pressed micropython_ticks_diff p3 b2 in
  r1 = true /\ r2 = false /\ r3 = true.
Proof.
  intros b p1 p2 p3.
  apply (is_long_pressed_fires_again micropython_ticks_diff p1 p2 p3 b);
    reflexivity.
Defined.

(** ** The name entry *)

Section NameEntry.
Import V3Settings V3Panel.

(** The first row of the table, the one [page] points at. *)
Lemma first_row :
  exists row, py_index CHAR_SETS (Z.of_nat 0) = Ret row
              /\ List.length row = 16%nat
              /\ nth_error CHAR_SETS 0 = Some row.
Proof. eexists. repeat split. Qed.

Lemma py_index_in_range {A : Type} (l : list A) (i : Z) :
  0 <= i < Z.of_nat (List.length l) ->
  exists a, py_index l i = Ret a /\ In a l.
Proof.
  intros Hi. unfold py_index.
  destruct (Z.ltb_spec i 0) as [Hneg|_]; [lia|].
  destruct (Z.ltb_spec i 0) as [Hneg|_]; [lia|].
  destruct (Z.leb_spec (Z.of_nat (List.length l)) i) as [Hbig|_]; [lia|].
  simpl. destruct (nth_error l (Z.to_nat i)) as [a|] eqn:E.
  - exists a. split; [reflexivity|]. now apply nth_error_In in E.
  - apply nth_error_None in E. lia.
Qed.

Lemma removelast_shorter {A : Type} (l : list A) :
  (List.length (removelast l) <= List.length l)%nat.
Proof.
  induction l as [|a [|b l] IH]; simpl in *; lia.
Qed.

Lemma removelast_Forall {A : Type} (P : A -> Prop) (l : list A) :
  Forall P l -> Forall P (removelast l).
Proof.
  induction 1 as [|a l Ha Hl IH]; simpl; [constructor|].
  destruct l; [constructor|]. constructor; assumption.
Qed.

Lemma input_loop_invariant (max_length : nat) (row : list string) (polls : list pad) :
  py_index CHAR_SETS (Z.of_nat 0) = Ret row ->
  List.length row = 16%nat ->
  forall (current_text : list string) (selected : Z) (r : result (list string)),
    (List.length current_text <= max_length)%nat ->
    Forall (fun c => In c row) current_text ->
    0 <= selected < 16 ->
    input_loop max_length current_text selected polls = Some r ->
    exists text,
      r = Ret text
      /\ (List.length text <= max_length)%nat
      /\ Forall (fun c => In c row) text.
Proof.
  intros Hrow Hlen.
  assert (Hmod : forall a, py_mod a (Z.of_nat (List.length row)) = Ret (a mod 16)
                           /\ 0 <= a mod 16 < 16).
  { intros a. rewrite Hlen. split; [reflexivity | apply Z.mod_pos_bound; lia]. }
  induction polls as [|p polls IH]; intros text selected r Htext Hchars Hsel;
    cbn [input_loop]; [discriminate|].
  rewrite Hrow. cbn [bind].
  destruct (p_up p).
  { destruct (Hmod (selected - 1)) as [-> Hr]. now apply IH. }
  destruct (p_down p).
  { destruct (Hmod (selected + 1)) as [-> Hr]. now apply IH. }
  destruct (p_select p).
  { destruct (Nat.ltb 0 (List.length CHAR_SETS)); cbn [andb]; [|now apply IH].
    destruct (Nat.ltb_spec (List.length text) max_length) as [Hlt|Hge]; [|now apply IH].
    destruct (py_index_in_range row selected) as (c & -> & Hc); [rewrite Hlen; lia|].
    apply IH; auto.
    - rewrite length_app. simpl. lia.
    - apply Forall_app. split; [exact Hchars | repeat constructor; exact Hc]. }
  destruct (p_back p).
  { destruct text as [|c text]; cbn [nonempty].
    - intros H. injection H as <-. exists []. repeat split; [lia|constructor].
    - apply IH; auto using removelast_Forall.
      pose proof (removelast_shorter (c :: text)). lia. }
  destruct (p_up_long p && p_down_long p).
  { destruct text as [|c text]; cbn [nonempty]; [now apply IH|].
    intros H. injection H as <-. exists (c :: text). auto. }
  now apply IH.
Qed.

(** X20.  Whatever the buttons do, the name entry never raises; the text it
    returns has at most [max_length] characters, and every character comes
    from the first of the eight rows of [CHAR_SETS]: the other rows cannot be
    reached. *)
Theorem input_returns_short_first_row_text (max_length : nat) (polls : list pad)
    (r : result (list string)) :
  input max_length polls = Some r ->
  exists text row,
    r = Ret text
    /\ (List.length text <= max_length)%nat
    /\ nth_error CHAR_SETS 0 = Some row
    /\ Forall (fun c => In c row) text.
Proof.
  intros H. destruct first_row as (row & Hrow & Hlen & Hnth).
  destruct (input_loop_invariant max_length row polls Hrow Hlen [] 0 r) as (text & -> & Ht & Hc);
    auto; [simpl; lia | lia |].
  exists text, row. auto.
Qed.

End NameEntry.

Lemma input_returns_short_first_row_text_witness :
  let press_select := {| V3Settings.p_up := false; V3Settings.p_down := false;
                         V3Settings.p_select := true; V3Settings.p_back := false;
                         V3Settings.p_up_long := false; V3Settings.p_down_long := false |} in
  let confirm := {| V3Settings.p_up := false; V3Settings.p_down := false;
                    V3Settings.p_select := false; V3Settings.p_back := false;
                    V3Settings.p_up_long := true; V3Settings.p_down_long := true |} in
  exists text row,
    Ret ["赵"] = Ret text
    /\ (List.length text <= 8)%nat
    /\ nth_error V3Panel.CHAR_SETS 0 = Some row
    /\ Forall (fun c => In c row) text.
Proof.
  intros press_select confirm.
  apply (input_returns_short_first_row_text 8 [press_select; confirm]).
  reflexivity.
Defined.

(** ** Settings *)

Section Settings.
Local Open Scope R_scope.
Import V3Settings.

Variable ticks_diff : Z -> Z -> Z.

Lemma liveness_detection_without_window (cfg : V3.Config) (start_time : Z)
    (frames : list V3.live_tick) :
  (V3.LIVENESS_TIMEOUT cfg <= 0)%Z ->
  (forall tk, In tk frames -> (0 <= ticks_diff (V3.l_now tk) start_time)%Z) ->
  V3._liveness_detection ticks_diff cfg start_time frames = None
  \/ V3._liveness_detection ticks_diff cfg start_time frames = Some false.
Proof.
  intros Hoff Hpos. unfold V3._liveness_detection.
  destruct frames as [|tk frames]; [now left|]. right. simpl.
  specialize (Hpos tk (or_introl eq_refl)).
  destruct (Z.ltb_spec (ticks_diff (V3.l_now tk) start_time) (V3.LIVENESS_TIMEOUT cfg));
    [lia|reflexivity].
Qed.

(** X21.  After [_toggle_liveness_detection] has switched the check "off"
    (timeout 0), no run of [_registration_mode] adds a user: as long as the
    clock has not gone backwards, the check is still made and fails at its
    first loop test, and the table and the file stay as they were. *)
Theorem liveness_off_blocks_enrollment (cfg : V3.Config) (env : V3.enrollment_env)
    (st : state) :
  (0 < V3.LIVENESS_TIMEOUT cfg)%Z ->
  (forall tk, In tk (V3.e_live env) ->
     (0 <= ticks_diff (V3.l_now tk) (V3.e_live_start env))%Z) ->
  let run := V3._registration_mode ticks_diff (_toggle_liveness_detection cfg) env st in
  fst run = st
  /\ forall user_id, snd run <> V3.Registered user_id /\ snd run <> V3.SaveFailed user_id.
Proof.
  intros Hon Hclock.
  assert (Hoff : (V3.LIVENESS_TIMEOUT (_toggle_liveness_detection cfg) <= 0)%Z).
  { unfold _toggle_liveness_detection.
    destruct (Z.gtb_spec (V3.LIVENESS_TIMEOUT cfg) 0); simpl; lia. }
  pose proof (liveness_detection_without_window
                (_toggle_liveness_detection cfg) (V3.e_live_start env) (V3.e_live env)
                Hoff Hclock) as Hlive.
  cbv zeta. unfold V3._registration_mode.
  destruct (V3.e_name env) as [|c name]; [split; [reflexivity | split; discriminate]|].
  destruct (V3.collect (_toggle_liveness_detection cfg) [] (V3.e_capture env))
    as [[|s ss]|]; try (split; [reflexivity | split; discriminate]).
  destruct Hlive as [-> | ->]; split; try reflexivity; split; discriminate.
Qed.

Lemma adjust_loop_in_range (cfg cfg' : V3.Config) (polls : list pad) :
  1 / 10 <= V3.SIMILARITY_THRESHOLD cfg <= 1 ->
  forall current,
    1 / 10 <= current <= 1 ->
    adjust_loop cfg current polls = Some cfg' ->
    1 / 10 <= V3.SIMILARITY_THRESHOLD cfg' <= 1
    /\ V3.LIVENESS_TIMEOUT cfg' = V3.LIVENESS_TIMEOUT cfg
    /\ V3.MIN_FACE_SIZE cfg' = V3.MIN_FACE_SIZE cfg
    /\ V3.REGISTRATION_SAMPLES cfg' = V3.REGISTRATION_SAMPLES cfg.
Proof.
  intros Hcfg.
  induction polls as [|p polls IH]; intros current Hcur; simpl; [discriminate|].
  destruct (p_up p).
  { apply IH. unfold Rmin. destruct (Rle_dec 1 (current + 1 / 10)); lra. }
  destruct (p_down p).
  { apply IH. unfold Rmax. destruct (Rle_dec (1 / 10) (current - 1 / 10)); lra. }
  destruct (p_select p).
  { intros H. injection H as <-. simpl. auto. }
  destruct (p_back p).
  { intros H. injection H as <-. auto. }
  now apply IH.
Qed.

(** X22.  [_adjust_threshold] keeps the threshold between 0.1 and 1.0: if the
    configured threshold is in that range when the screen opens, so is the one
    it leaves, and the other settings are not touched. *)
Theorem adjust_threshold_stays_in_range (cfg cfg' : V3.Config) (polls : list pad) :
  1 / 10 <= V3.SIMILARITY_THRESHOLD cfg <= 1 ->
  _adjust_threshold cfg polls = Some cfg' ->
  1 / 10 <= V3.SIMILARITY_THRESHOLD cfg' <= 1
  /\ V3.LIVENESS_TIMEOUT cfg' = V3.LIVENESS_TIMEOUT cfg
  /\ V3.MIN_FACE_SIZE cfg' = V3.MIN_FACE_SIZE cfg
  /\ V3.REGISTRATION_SAMPLES cfg' = V3.REGISTRATION_SAMPLES cfg.
Proof.
  unfold _adjust_threshold. intros Hcfg. now apply adjust_loop_in_range.
Qed.

End Settings.

Section SettingsWitnesses.
Local Open Scope R_scope.
Import V3Settings.

Lemma liveness_off_blocks_enrollment_witness :
  let run := V3._registration_mode micropython_ticks_diff
               (_toggle_liveness_detection V3.default_config) (ada_env IoOk) empty_state in
  fst run = empty_state
  /\ forall user_id, snd run <> V3.Registered user_id /\ snd run <> V3.SaveFailed user_id.
Proof.
  apply (liveness_off_blocks_enrollment micropython_ticks_diff V3.default_config
           (ada_env IoOk) empty_state).
  - reflexivity.
  - intros tk [<-|[<-|[]]]; discriminate.
Defined.

Lemma default_threshold_in_range : 1 / 10 <= V3.SIMILARITY_THRESHOLD V3.default_config <= 1.
Proof. simpl. lra. Qed.

Lemma adjust_threshold_stays_in_range_witness :
  let up := {| p_up := true; p_down := false; p_select := false; p_back := false;
               p_up_long := false; p_down_long := false |} in
  let ok := {| p_up := false; p_down := false; p_select := true; p_back := false;
               p_up_long := false; p_down_long := false |} in
  let cfg' := {| V3.MIN_FACE_SIZE := 80;
                 V3.REGISTRATION_SAMPLES := 5;
                 V3.SIMILARITY_THRESHOLD := Rmin 1 (5 / 10 + 1 / 10);
                 V3.LIVENESS_TIMEOUT := 5000 |} in
  _adjust_threshold V3.default_config [up; ok] = Some cfg'
  /\ 1 / 10 <= V3.SIMILARITY_THRESHOLD cfg' <= 1
  /\ V3.LIVENESS_TIMEOUT cfg' = V3.LIVENESS_TIMEOUT V3.default_config
  /\ V3.MIN_FACE_SIZE cfg' = V3.MIN_FACE_SIZE V3.default_config
  /\ V3.REGISTRATION_SAMPLES cfg' = V3.REGISTRATION_SAMPLES V3.default_config.
Proof.
  intros up ok cfg'. split; [reflexivity|].
  apply (adjust_threshold_stays_in_range V3.default_config cfg' [up; ok]).
  - exact default_threshold_in_range.
  - reflexivity.
Defined.

End SettingsWitnesses.

(** ** Renaming and re-enrollment *)

Section RecordUpdates.
Local Open Scope R_scope.

(** Replacing a record by one that keeps the same value under [key] does not
    change what the matcher loop computes. *)
Lemma scan_users_set (key : string) (probe : list R) (user_id : string)
    (user user' : user_data) (items : list (string * user_data)) :
  get user_id items = Some user ->
  get key user' = get key user ->
  forall highest best,
    scan_users key probe (set user_id user' items) highest best
    = scan_users key probe items highest best.
Proof.
  intros Hget Hkey.
  induction items as [|[k d] items IH]; intros highest best; [discriminate|].
  simpl in Hget. simpl set.
  destruct (String.eqb_spec user_id k) as [->|Hne].
  - injection Hget as ->. simpl. now rewrite Hkey.
  - simpl. destruct (get key d) as [v|]; [|reflexivity].
    destruct (known <- as_vector v ;; cosine_similarity probe known) as [s|e];
      [|reflexivity].
    destruct (Rgt_dec s highest); now apply IH.
Qed.

Lemma keys_set_present {V : Type} (k : string) (v v0 : V) (d : dict V) :
  get k d = Some v0 -> keys (set k v d) = keys d.
Proof.
  intros H. rewrite keys_set. unfold mem. now rewrite H.
Qed.

(** X23.  Renaming a user changes nothing for recognition: whatever
    [_rename_user] does, the ids and their order stay the same and
    [find_user_by_features] gives the same answer for every probe and
    threshold. *)
Theorem rename_user_keeps_matches (user_id new_name : string) (o : io)
    (st st' : state) (outcome : V3Store.rename_outcome) :
  V3Store._rename_user user_id new_name o st = Ret (st', outcome) ->
  keys (users st') = keys (users st)
  /\ forall features threshold,
       V3.find_user_by_features features threshold (users st')
       = V3.find_user_by_features features threshold (users st).
Proof.
  unfold V3Store._rename_user, V3.get_user.
  destruct (get user_id (users st)) as [[|fld flds]|] eqn:Eget;
    try (intros H; injection H as <- _; auto).
  cbv zeta. remember (fld :: flds) as user eqn:Euser.
  destruct (get "name" user) as [old|]; [|discriminate].
  destruct (nonempty (list_ascii_of_string new_name) && V3Store.differs new_name old);
    [|intros H; injection H as <- _; auto].
  unfold V3.save_db.
  destruct o; intros H; injection H as <- _; cbn [users].
  all: split; [now apply keys_set_present with (v0 := user)|].
  all: intros [[|x xs]|] threshold; try reflexivity; cbn [V3.find_user_by_features].
  all: apply scan_users_set with (user := user); [exact Eget|].
  all: now apply get_set_other.
Qed.

Lemma rename_user_keeps_matches_witness :
  let st := {| users := [("1000", sample_user "Ada" e1)]; disk := None |} in
  let st' := {| users := [("1000", sample_user "Eve" e1)];
                disk := Some [("1000", sample_user "Eve" e1)] |} in
  keys (users st') = keys (users st)
  /\ forall features threshold,
       V3.find_user_by_features features threshold (users st')
       = V3.find_user_by_features features threshold (users st).
Proof.
  apply (rename_user_keeps_matches "1000" "Eve" IoOk
           {| users := [("1000", sample_user "Ada" e1)]; disk := None |}
           {| users := [("1000", sample_user "Eve" e1)];
              disk := Some [("1000", sample_user "Eve" e1)] |}
           V3Store.Renamed).
  reflexivity.
Defined.

(** X24.  Re-enrollment of a user whose record has a name replaces the stored
    vector by the mean of the samples just taken (the old vector plays no
    part), and keeps the name, the ids and their order. *)
Theorem recollect_replaces_vector (cfg : V3.Config) (user_id : string)
    (frames : list V3.capture_tick) (o : io) (st st' : state)
    (old : user_data) (name : value) (samples : list (list R)) (d : nat) :
  get user_id (users st) = Some old ->
  get "name" old = Some name ->
  V3.collect cfg [] frames = Some samples ->
  Forall (fun f => List.length f = d) samples ->
  V3._recollect_user_features cfg user_id frames o st = Ret (st', V3.Updated) ->
  keys (users st') = keys (users st)
  /\ exists data,
       get user_id (users st') = Some data
       /\ get "name" data = Some name
       /\ get "features" data = Some (VFloats (map (mean_component samples) (seq 0 d))).
Proof.
  intros Hget Hname Hcol Hall. unfold V3._recollect_user_features, V3.get_user.
  rewrite Hget.
  destruct old as [|fld flds]; [discriminate|].
  cbv zeta. remember (fld :: flds) as user eqn:Euser.
  rewrite Hname, Hcol.
  destruct samples as [|s ss]; [discriminate|].
  rewrite (avg_features_mean d) by exact Hall.
  remember (s :: ss) as samples eqn:Esamples.
  unfold V3.save_db.
  destruct o; intros H; [|discriminate].
  injection H as <-. cbn [users]. split.
  - now apply keys_set_present with (v0 := user).
  - eexists. split; [apply get_set_same|]. split.
    + rewrite !get_set_other by discriminate. exact Hname.
    + rewrite get_set_other by discriminate. apply get_set_same.
Qed.

End RecordUpdates.

Lemma recollect_replaces_vector_witness :
  let st := {| users := [("1000", sample_user "Ada" e2)]; disk := None |} in
  let renewed := [ ("name", VStr "Ada");
                   ("features", VFloats e1);
                   ("registered_at", VStr "(2024, 1, 1, 0, 0, 0, 0, 1)");
                   ("samples_count", VInt 3) ] in
  let st' := {| users := [("1000", renewed)]; disk := Some [("1000", renewed)] |} in
  keys (users st') = keys (users st)
  /\ exists data,
       get "1000" (users st') = Some data
       /\ get "name" data = Some (VStr "Ada")
       /\ get "features" data
          = Some (VFloats (map (mean_component [e1; e1; e1]) (seq 0 3))).
Proof.
  intros st renewed st'.
  apply (recollect_replaces_vector V3.default_config "1000"
           (V3.e_capture (ada_env IoOk)) IoOk st st'
           (sample_user "Ada" e2) (VStr "Ada") [e1; e1; e1] 3).
  - reflexivity.
  - reflexivity.
  - apply ada_collects_three.
  - repeat constructor.
  - unfold V3._recollect_user_features.
    change (V3.get_user "1000" st)
      with (Some (("name", VStr "Ada") :: tl (sample_user "Ada" e2))).
    cbv iota zeta.
    change (get "name" (("name", VStr "Ada") :: tl (sample_user "Ada" e2)))
      with (Some (VStr "Ada")).
    cbv iota. rewrite ada_collects_three, mean_of_three_e1.
    reflexivity.
Defined.

Lemma is_pressed_again_only_after_long_press_witness :
  let low := {| V3Panel.pin_first := 0; V3Panel.pin_after := 0; V3Panel.pin_now := 500 |} in
  let late := {| V3Panel.pin_first := 0; V3Panel.pin_after := 0; V3Panel.pin_now := 2000 |} in
  let calls := [V3Panel.Short low; V3Panel.Long late; V3Panel.Short late] in
  exists j q,
    (0 < j < 2)%nat /\ nth_error calls j = Some (V3Panel.Long q)
    /\ nth_error (V3Panel.poll_calls micropython_ticks_diff calls V3Panel.new_button) j
       = Some true.
Proof.
  intros low late calls.
  apply (is_pressed_again_only_after_long_press micropython_ticks_diff calls
           V3Panel.new_button 0%nat 2%nat low late).
  - repeat constructor.
  - lia.
  - reflexivity.
  - reflexivity.
  - reflexivity.
  - reflexivity.
Defined.

(** ** The cosine over binary64 floats *)

Module Float64Facts.

Import Floats.

Lemma SFmul_comm (prec emax : Z) (x y : SpecFloat.spec_float) :
  SpecFloat.SFmul prec emax x y = SpecFloat.SFmul prec emax y x.
Proof.
  destruct x as [sx|sx| |sx mx ex], y as [sy|sy| |sy my ey]; simpl;
    try reflexivity; try (now rewrite xorb_comm).
  now rewrite xorb_comm, Pos.mul_comm, Z.add_comm.
Qed.

(** Float multiplication gives the same float in either order. *)
Lemma mul_comm (x y : float) : (x * y)%float = (y * x)%float.
Proof.
  apply FloatAxioms.Prim2SF_inj. rewrite !FloatAxioms.mul_spec. apply SFmul_comm.
Qed.




(** When the squares overflow the result is not a number at all. *)
Lemma cosine_similarity_overflow :
  Float64.cosine_similarity Float64.huge Float64.huge = Ret nan.
Proof. vm_compute. reflexivity. Qed.



End Float64Facts.
